(** * CoWorkBot: the session table, the session life cycle and the reports

    A shallow embedding of [bot.py].  The SQLite table [sessions] is a list of
    rows kept in rowid order, every SQL statement of the bot is a function on
    that table, and every command handler is a function from the database
    (and from what the handler reads from the outside world: the clock, the
    user's reply) to the messages it sends and the database it leaves.

    Conventions.
    - Python [int] and SQLite INTEGER are [Z]; SQLite's 64-bit limit is not
      modelled (epoch seconds and minute totals are far below it).
    - [str] and TEXT are [string], holding the bytes of the UTF-8 encoding
      of the text; NULL is [None].
    - Each call of [time.time()] is a separate input of the handler that
      makes it: two calls in one handler are two inputs.
    - [run] executes whole handlers one after the other.  Only [!logout]
      can be overtaken by other handlers (it waits for the reply between its
      lookup and its UPDATE); [run_steps] executes such interleavings. *)

From Stdlib Require Import ZArith List String Ascii Bool Lia.
From Stdlib Require Import Permutation Sorting.Sorted.
Import ListNotations.
Local Open Scope Z_scope.

(** ** The table [sessions] *)

(** One row of [sessions], column by column as in [CREATE TABLE]. *)
Record Session : Type := mkSession {
  id : Z;                          (* INTEGER PRIMARY KEY AUTOINCREMENT *)
  user_id : string;                (* TEXT NOT NULL *)
  username : string;               (* TEXT *)
  start_ts : Z;                    (* INTEGER NOT NULL, epoch seconds *)
  end_ts : option Z;               (* NULL for active sessions *)
  duration_minutes : option Z;     (* computed at logout *)
  description : option string;     (* TEXT *)
  created_at : Z                   (* DEFAULT (strftime('%s','now')) *)
}.

(** The database file: the rows in rowid order, and the AUTOINCREMENT
    counter that SQLite keeps in [sqlite_sequence]. *)
Record Database : Type := mkDatabase {
  sessions : list Session;
  sqlite_sequence : Z
}.

Definition empty_db : Database :=
  {| sessions := []; sqlite_sequence := 0 |}.

(** [init_db]: CREATE TABLE IF NOT EXISTS.  A database file that is not
    there yet ([None]) becomes the empty table, an existing one is kept. *)
Definition init_db (file : option Database) : Database :=
  match file with
  | Some db => db
  | None => empty_db
  end.

Definition is_null {A : Type} (o : option A) : bool :=
  match o with
  | None => true
  | Some _ => false
  end.

Definition not_null {A : Type} (o : option A) : bool := negb (is_null o).

(** [WHERE user_id = ? AND end_ts IS NULL] *)
Definition is_active_for (uid : string) (s : Session) : bool :=
  String.eqb (user_id s) uid && is_null (end_ts s).

(** [get_current_session]: the SELECT has no ORDER BY and [fetchone] takes
    the first row that the scan produces.  The scan (of the table, or of
    [idx_user] for one [user_id]) visits rows by increasing rowid, which is
    the order of [sessions]. *)
Definition get_current_session (db : Database) (uid : string) : option Session :=
  find (is_active_for uid) (sessions db).

(** The largest rowid in the table (0 when it is empty). *)
Definition max_rowid (rows : list Session) : Z :=
  fold_right (fun s m => Z.max (id s) m) 0 rows.

(** The rowid AUTOINCREMENT gives to the next row: one more than the
    largest rowid ever used. *)
Definition next_rowid (db : Database) : Z :=
  Z.max (sqlite_sequence db) (max_rowid (sessions db)) + 1.

(** [INSERT INTO sessions (user_id, username, start_ts) VALUES (?, ?, ?)]:
    the three close columns get NULL, [created_at] its default (the
    database's own reading of the clock, [db_now]). *)
Definition insert_session (db : Database) (uid uname : string)
    (start db_now : Z) : Database :=
  let rid := next_rowid db in
  {| sessions := sessions db ++
       [ {| id := rid; user_id := uid; username := uname; start_ts := start;
            end_ts := None; duration_minutes := None; description := None;
            created_at := db_now |} ];
     sqlite_sequence := rid |}.

Definition close_row (e d : Z) (desc : string) (s : Session) : Session :=
  {| id := id s; user_id := user_id s; username := username s;
     start_ts := start_ts s;
     end_ts := Some e; duration_minutes := Some d; description := Some desc;
     created_at := created_at s |}.

(** [UPDATE sessions SET end_ts = ?, duration_minutes = ?, description = ?
    WHERE id = ?] *)
Definition update_session (db : Database) (e d : Z) (desc : string)
    (sid : Z) : Database :=
  {| sessions :=
       map (fun s => if id s =? sid then close_row e d desc s else s)
           (sessions db);
     sqlite_sequence := sqlite_sequence db |}.

(** ** Durations and clock display *)

(** [round(duration_seconds / 60)].  Python divides to a float and rounds
    halves to the even integer.  The quotient of an integer by 60 is a half
    exactly when the remainder is 30, and then the float is exact; any other
    quotient is at least 1/60 away from a half, so for epoch-sized integers
    the float rounds as the rational does. *)
Definition round_div60 (seconds : Z) : Z :=
  let q := seconds / 60 in
  let r := seconds mod 60 in
  if r <? 30 then q
  else if 30 <? r then q + 1
  else if Z.even q then q else q + 1.

(** [get_session_duration]: [now] is the value of [int(time.time())] that
    the function itself reads. *)
Definition get_session_duration (session : Session) (now : Z) : Z :=
  let end_ts := now in
  let duration_seconds := end_ts - start_ts session in
  round_div60 duration_seconds.

Definition digit (n : Z) : ascii :=
  ascii_of_nat (48 + Z.to_nat (n mod 10)).

(** [%H], [%M] and [%S]: two digits, zero padded. *)
Definition two_digits (n : Z) : string :=
  String (digit (n / 10)) (String (digit n) EmptyString).

(** [time.strftime('%H:%M:%S', time.gmtime(ts))] *)
Definition strftime_HMS (ts : Z) : string :=
  (two_digits ((ts / 3600) mod 24) ++ ":" ++
   two_digits ((ts / 60) mod 60) ++ ":" ++
   two_digits (ts mod 60))%string.

(** The display convention [(total // 60, total % 60)]; Python's floor
    division and modulo are [Z.div] and [Z.modulo]. *)
Definition hours_minutes (total : Z) : Z * Z := (total / 60, total mod 60).

(** [str.strip()] removes the characters for which [str.isspace] holds:
    U+0009..U+000D, U+001C..U+0020, U+0085, U+00A0, U+1680, U+2000..U+200A,
    U+2028, U+2029, U+202F, U+205F and U+3000.  In UTF-8 such a character
    takes one, two or three bytes. *)

(** The whitespace characters of one byte: U+0009..U+000D, U+001C..U+0020. *)
Definition is_space (c : ascii) : bool :=
  let n := N_of_ascii c in
  ((9 <=? n) && (n <=? 13) || (28 <=? n) && (n <=? 32))%N.

(** Of two bytes: U+0085 (C2 85) and U+00A0 (C2 A0). *)
Definition is_space2 (a b : ascii) : bool :=
  let x := N_of_ascii a in
  let y := N_of_ascii b in
  ((x =? 194) && ((y =? 133) || (y =? 160)))%N.

(** Of three bytes: U+1680 (E1 9A 80), U+2000..U+200A (E2 80 80..8A),
    U+2028, U+2029, U+202F (E2 80 A8, A9, AF), U+205F (E2 81 9F) and
    U+3000 (E3 80 80). *)
Definition is_space3 (a b c : ascii) : bool :=
  let x := N_of_ascii a in
  let y := N_of_ascii b in
  let z := N_of_ascii c in
  ((x =? 225) && (y =? 154) && (z =? 128)
   || (x =? 226) && (y =? 128) &&
      ((128 <=? z) && (z <=? 138) || (z =? 168) || (z =? 169) || (z =? 175))
   || (x =? 226) && (y =? 129) && (z =? 159)
   || (x =? 227) && (y =? 128) && (z =? 128))%N.


Fixpoint lstrip (s : string) : string :=
  match s with
  | String a r1 =>
      if is_space a then lstrip r1
      else match r1 with
           | String b r2 =>
               if is_space2 a b then lstrip r2
               else match r2 with
                    | String c r3 => if is_space3 a b c then lstrip r3 else s
                    | EmptyString => s
                    end
           | EmptyString => s
           end
  | EmptyString => EmptyString
  end.

(** [s] consists of whitespace characters only. *)
Definition all_space (s : string) : bool :=
  match lstrip s with
  | EmptyString => true
  | String _ _ => false
  end.

(** Cut [s] where its last run of whitespace begins. *)
Fixpoint rstrip (s : string) : string :=
  match s with
  | String c rest => if all_space s then EmptyString else String c (rstrip rest)
  | EmptyString => EmptyString
  end.

Definition strip (s : string) : string := rstrip (lstrip s).

(** ** The commands *)

(** What a handler sends with [ctx.send], reduced to the data shown. *)
Inductive Message : Type :=
| AlreadyLoggedIn (start_time : string)
| ClockedIn
| NotLoggedIn
| DescriptionPrompt
| TimeoutReached (description : string)
| SessionLogged (hours minutes : Z) (task : string)
| ClockedOut
| Working (hours minutes : Z) (start_time : string)
| NoCompletedSessionsYet
| Leaderboard (lines : list (Z * string * Z * Z))
| NoCompletedWorkFound (username : string)
| WorkReport (username : string) (session_count hours minutes : Z)
| NoCompletedSessionsInDatabase
| ServerSummary (lines : list (string * Z * Z * Z))
| MissingPermissions.

(** [!login].  [current_ts] is the handler's [int(time.time())], [db_now]
    the clock SQLite reads for [created_at]. *)
Definition login (db : Database) (uid uname : string)
    (current_ts db_now : Z) : list Message * Database :=
  match get_current_session db uid with
  | Some _ =>
      match get_current_session db uid with
      | Some session =>
          ([AlreadyLoggedIn (strftime_HMS (start_ts session))], db)
      | None => ([], db)   (* session[3] on None raises; not reachable *)
      end
  | None => ([ClockedIn], insert_session db uid uname current_ts db_now)
  end.

Definition timeout_description : string :=
  "No description provided (Timed out).".

(** The [try]/[except] of [!logout]: the reply, stripped, or the fixed
    placeholder when [bot.wait_for] times out. *)
Definition logout_description (reply : option string) : string :=
  match reply with
  | Some content => strip content
  | None => timeout_description
  end.

(** The extra message the [except] branch sends. *)
Definition logout_notice (reply : option string) : list Message :=
  match reply with
  | Some _ => []
  | None => [TimeoutReached timeout_description]
  end.

(** [!logout].  [reply] is the message [bot.wait_for] returns, [None] when
    it times out.  The clock is read twice after the wait: [t_duration] by
    [get_session_duration], then [t_end] by the handler for [end_ts]. *)
Definition logout (db : Database) (uid : string) (reply : option string)
    (t_duration t_end : Z) : list Message * Database :=
  match get_current_session db uid with
  | None => ([NotLoggedIn], db)
  | Some session =>
      let description := logout_description reply in
      let session_id := id session in
      let duration_minutes := get_session_duration session t_duration in
      let end_ts := t_end in
      let db' := update_session db end_ts duration_minutes description
                   session_id in
      let (hours, minutes) := hours_minutes duration_minutes in
      ([DescriptionPrompt] ++ logout_notice reply ++
       [SessionLogged hours minutes description], db')
  end.

(** [!status] *)
Definition status (db : Database) (uid : string) (now : Z)
    : list Message * Database :=
  match get_current_session db uid with
  | None => ([ClockedOut], db)
  | Some session =>
      let duration_minutes := get_session_duration session now in
      let (hours, minutes) := hours_minutes duration_minutes in
      ([Working hours minutes (strftime_HMS (start_ts session))], db)
  end.

(** ** Aggregation queries *)

(** [WHERE duration_minutes IS NOT NULL] *)
Definition is_completed (s : Session) : bool := not_null (duration_minutes s).

Definition completed (rows : list Session) : list Session :=
  filter is_completed rows.

(** SQL [SUM]: NULL values are skipped, and the sum of no value is NULL. *)
Fixpoint sql_sum (values : list (option Z)) : option Z :=
  match values with
  | [] => None
  | v :: rest =>
      match v, sql_sum rest with
      | None, total => total
      | Some x, None => Some x
      | Some x, Some y => Some (x + y)
      end
  end.

(** SQL [COUNT(id)]: [id] is never NULL, so every row counts. *)
Definition sql_count (rows : list Session) : Z := Z.of_nat (List.length rows).

Definition minutes_of (s : Session) : Z :=
  match duration_minutes s with
  | Some d => d
  | None => 0
  end.

(** [SUM(duration_minutes)] over rows that all passed
    [duration_minutes IS NOT NULL] (see [sql_sum_completed] below). *)
Definition sum_minutes (rows : list Session) : Z :=
  fold_right (fun s total => minutes_of s + total) 0 rows.

(** The grouping columns of [GROUP BY user_id, username]. *)
Definition GroupKey : Type := (string * string)%type.

Definition group_key (s : Session) : GroupKey := (user_id s, username s).

Definition key_eqb (k1 k2 : GroupKey) : bool :=
  String.eqb (fst k1) (fst k2) && String.eqb (snd k1) (snd k2).

Definition in_group (k : GroupKey) (s : Session) : bool :=
  key_eqb (group_key s) k.

(** The distinct values of the grouping columns, in order of first
    appearance. *)
Fixpoint distinct_keys (keys : list GroupKey) : list GroupKey :=
  match keys with
  | [] => []
  | k :: rest => k :: filter (fun k' => negb (key_eqb k k')) (distinct_keys rest)
  end.

(** One output row of a grouped query, with its grouping columns. *)
Record Group : Type := mkGroup {
  g_user_id : string;
  g_username : string;
  g_total : Z;         (* SUM(duration_minutes) *)
  g_count : Z          (* COUNT(id) *)
}.

Definition aggregate_group (rows : list Session) (k : GroupKey) : Group :=
  let members := filter (in_group k) rows in
  {| g_user_id := fst k; g_username := snd k;
     g_total := sum_minutes members; g_count := sql_count members |}.

(** The order of the grouping columns: by [user_id], then by [username],
    each compared byte by byte (the BINARY collation). *)
Definition key_leb (k1 k2 : GroupKey) : bool :=
  match String.compare (fst k1) (fst k2) with
  | Lt => true
  | Gt => false
  | Eq =>
      match String.compare (snd k1) (snd k2) with
      | Gt => false
      | _ => true
      end
  end.

Fixpoint insert_key (k : GroupKey) (sorted : list GroupKey) : list GroupKey :=
  match sorted with
  | [] => [k]
  | h :: rest => if key_leb k h then k :: sorted else h :: insert_key k rest
  end.

Definition sort_keys (keys : list GroupKey) : list GroupKey :=
  fold_right insert_key [] keys.

(** The groups of [GROUP BY user_id, username]: SQLite sorts the rows on
    the grouping columns, so the distinct pairs come out in increasing
    order. *)
Definition group_keys (rows : list Session) : list GroupKey :=
  sort_keys (distinct_keys (map group_key rows)).

(** [GROUP BY user_id, username]: one output row per distinct pair. *)
Definition group_by_user (rows : list Session) : list Group :=
  map (aggregate_group rows) (group_keys rows).

(** [ORDER BY total_minutes DESC].  Rows with equal totals keep the order
    in which the grouping produced them, as SQLite's sort does (it breaks
    ties by order of arrival). *)
Fixpoint insert_desc (g : Group) (sorted : list Group) : list Group :=
  match sorted with
  | [] => [g]
  | h :: rest =>
      if g_total h <? g_total g then g :: sorted
      else if g_total h =? g_total g then g :: sorted
      else h :: insert_desc g rest
  end.

Definition order_by_total_desc (groups : list Group) : list Group :=
  fold_right insert_desc [] groups.

(** The grouped and ordered rows, before any [LIMIT]. *)
Definition ranking (db : Database) : list Group :=
  order_by_total_desc (group_by_user (completed (sessions db))).

(** The query of [!leaderboard]: [SELECT username, SUM(...) ... LIMIT 10]. *)
Definition leaderboard_query (db : Database) : list (string * Z) :=
  map (fun g => (g_username g, g_total g)) (firstn 10 (ranking db)).

(** The query of the server report:
    [SELECT username, SUM(...), COUNT(id) ... LIMIT 5]. *)
Definition server_report_query (db : Database) : list (string * Z * Z) :=
  map (fun g => (g_username g, g_total g, g_count g)) (firstn 5 (ranking db)).

(** The query of the report for one user:
    [SELECT SUM(duration_minutes), COUNT(id) ... WHERE user_id = ? AND
    duration_minutes IS NOT NULL]. *)
Definition user_report_query (db : Database) (uid : string) : option Z * Z :=
  let rows :=
    filter (fun s => String.eqb (user_id s) uid && is_completed s)
           (sessions db) in
  (sql_sum (map duration_minutes rows), sql_count rows).

Fixpoint enumerate_from {A : Type} (i : Z) (l : list A) : list (Z * A) :=
  match l with
  | [] => []
  | x :: rest => (i, x) :: enumerate_from (i + 1) rest
  end.

(** [!leaderboard]: line [#i+1] for the [i]-th result. *)
Definition leaderboard (db : Database) : list Message * Database :=
  match leaderboard_query db with
  | [] => ([NoCompletedSessionsYet], db)
  | results =>
      ([Leaderboard
          (map (fun '(i, (uname, total_minutes)) =>
                  let (hours, minutes) := hours_minutes total_minutes in
                  (i + 1, uname, hours, minutes))
               (enumerate_from 0 results))], db)
  end.

(** The body of [!report]: [target_user] is the mentioned member (its id and
    its current name), [None] for the server report. *)
Definition report (db : Database) (target_user : option (string * string))
    : list Message * Database :=
  match target_user with
  | Some (uid, uname) =>
      let (total_minutes, session_count) := user_report_query db uid in
      match total_minutes with
      | None => ([NoCompletedWorkFound uname], db)
      | Some total =>
          let (total_hours, total_minutes_rem) := hours_minutes total in
          ([WorkReport uname session_count total_hours total_minutes_rem], db)
      end
  | None =>
      match server_report_query db with
      | [] => ([NoCompletedSessionsInDatabase], db)
      | results =>
          ([ServerSummary
              (map (fun '(uname, total_minutes, session_count) =>
                      let (total_hours, total_minutes_rem) :=
                        hours_minutes total_minutes in
                      (uname, total_hours, total_minutes_rem, session_count))
                   results)], db)
      end
  end.

(** [@commands.has_permissions(administrator=True)] and [report_error]. *)
Definition report_command (db : Database) (administrator : bool)
    (target_user : option (string * string)) : list Message * Database :=
  if administrator then report db target_user
  else ([MissingPermissions], db).

(** ** Serial execution *)

Inductive Command : Type :=
| Login (uid uname : string) (current_ts db_now : Z)
| Logout (uid : string) (reply : option string) (t_duration t_end : Z)
| Status (uid : string) (now : Z)
| ShowLeaderboard
| Report (administrator : bool) (target_user : option (string * string)).

Definition handle (db : Database) (c : Command) : list Message * Database :=
  match c with
  | Login uid uname current_ts db_now => login db uid uname current_ts db_now
  | Logout uid reply t_duration t_end => logout db uid reply t_duration t_end
  | Status uid now => status db uid now
  | ShowLeaderboard => leaderboard db
  | Report administrator target_user =>
      report_command db administrator target_user
  end.

(** The database after a sequence of commands, one after the other. *)
Definition run (db : Database) (cmds : list Command) : Database :=
  fold_left (fun d c => snd (handle d c)) cmds db.

(** ** Properties of rows and tables *)

(** The three close columns are all NULL or all set. *)
Definition close_fields_together (s : Session) : Prop :=
  (end_ts s = None /\ duration_minutes s = None /\ description s = None) \/
  (exists e d t,
      end_ts s = Some e /\ duration_minutes s = Some d /\ description s = Some t).

(** The active-session invariant: per user, at most one row with
    [end_ts] NULL. *)
Definition one_active (db : Database) : Prop :=
  forall uid, (List.length (filter (is_active_for uid) (sessions db)) <= 1)%nat.

(** The user has an active session: some row of theirs has [end_ts] NULL. *)
Definition has_active (db : Database) (uid : string) : Prop :=
  exists r, In r (sessions db) /\ user_id r = uid /\ end_ts r = None.

(** The rowids of the table increase along the list. *)
Definition rowids_increasing (db : Database) : Prop :=
  StronglySorted (fun a b => id a < id b) (sessions db).

(** [s] is an active row of [uid] that started no earlier than any other
    active row of [uid]. *)
Definition most_recent_active (db : Database) (uid : string) (s : Session) : Prop :=
  In s (sessions db) /\ user_id s = uid /\ end_ts s = None /\
  forall r, In r (sessions db) -> user_id r = uid -> end_ts r = None ->
            start_ts r <= start_ts s.

(** The minutes user [uid] completed under the display name [uname]. *)
Definition total_under (db : Database) (uid uname : string) : Z :=
  sum_minutes
    (filter (fun s => is_completed s &&
                      (String.eqb (user_id s) uid &&
                       String.eqb (username s) uname)) (sessions db)).

(** The rows [s1] and [s2] are counted in two different rows of the
    ranking, each with the total of its own pair; the ranking has one row
    per pair, totalling that pair only; and the two reports are prefixes of
    the ranking. *)
Definition separate_entries (db : Database) (s1 s2 : Session) : Prop :=
  (exists g1 g2,
      In g1 (ranking db) /\ In g2 (ranking db) /\ g1 <> g2 /\
      g_user_id g1 = user_id s1 /\ g_username g1 = username s1 /\
      g_total g1 = total_under db (user_id s1) (username s1) /\
      g_user_id g2 = user_id s2 /\ g_username g2 = username s2 /\
      g_total g2 = total_under db (user_id s2) (username s2)) /\
  NoDup (map (fun g => (g_user_id g, g_username g)) (ranking db)) /\
  Forall (fun g => g = aggregate_group (completed (sessions db))
                                       (g_user_id g, g_username g))
         (ranking db) /\
  leaderboard_query db =
    map (fun g => (g_username g, g_total g)) (firstn 10 (ranking db)) /\
  server_report_query db =
    map (fun g => (g_username g, g_total g, g_count g)) (firstn 5 (ranking db)).

(** ** Tables used as examples *)

(** One user, clocked in at 1700000000. *)
Definition clocked_in_db : Database :=
  run (init_db None) [Login "7" "ann" 1700000000 1700000000].

(** A table that breaks the active-session invariant: two open rows of
    user 42, the later row started later. *)
Definition two_active_db : Database :=
  {| sessions :=
       [ {| id := 1; user_id := "42"; username := "bo"; start_ts := 100;
            end_ts := None; duration_minutes := None; description := None;
            created_at := 100 |};
         {| id := 2; user_id := "42"; username := "bo"; start_ts := 200;
            end_ts := None; duration_minutes := None; description := None;
            created_at := 200 |} ];
     sqlite_sequence := 2 |}.

(** Two users with one completed hour each. *)
Definition tie_db : Database :=
  run (init_db None)
      [Login "1" "alice" 0 0; Login "2" "bob" 0 0;
       Logout "1" (Some "reading"%string) 3600 3600;
       Logout "2" (Some "writing"%string) 3600 3600].

(** Totals A:120, B:90, C:150. *)
Definition abc_db : Database :=
  run (init_db None)
      [Login "1" "A" 0 0; Login "2" "B" 0 0; Login "3" "C" 0 0;
       Logout "1" (Some "a"%string) 7200 7200;
       Logout "2" (Some "b"%string) 5400 5400;
       Logout "3" (Some "c"%string) 9000 9000].

(** User 1 works an hour as "alice", is renamed, and works 150 minutes as
    "alice2". *)
Definition renamed_db : Database :=
  run (init_db None)
      [Login "1" "alice" 0 0;
       Logout "1" (Some "first"%string) 3600 3600;
       Login "1" "alice2" 4000 4000;
       Logout "1" (Some "second"%string) 13000 13000].

Definition renamed_first : Session :=
  {| id := 1; user_id := "1"; username := "alice"; start_ts := 0;
     end_ts := Some 3600; duration_minutes := Some 60;
     description := Some "first"%string; created_at := 0 |}.

Definition renamed_second : Session :=
  {| id := 2; user_id := "1"; username := "alice2"; start_ts := 4000;
     end_ts := Some 13000; duration_minutes := Some 150;
     description := Some "second"%string; created_at := 4000 |}.

(** ** The export *)

(** [ORDER BY start_ts DESC].  As for the ranking, rows with equal
    [start_ts] keep the order they had, here the rowid order. *)
Fixpoint insert_by_start_desc (r : Session) (sorted : list Session)
    : list Session :=
  match sorted with
  | [] => [r]
  | h :: rest =>
      if start_ts h <? start_ts r then r :: sorted
      else if start_ts h =? start_ts r then r :: sorted
      else h :: insert_by_start_desc r rest
  end.

Definition order_by_start_desc (rows : list Session) : list Session :=
  fold_right insert_by_start_desc [] rows.

(** [SELECT * FROM sessions WHERE duration_minutes IS NOT NULL
    ORDER BY start_ts DESC] *)
Definition export_query (db : Database) : list Session :=
  order_by_start_desc (completed (sessions db)).

(** A value handed to [csv.writer]: an [int], a [str] or [None]. *)
Inductive Cell : Type :=
| IntCell (n : Z)
| TextCell (t : string)
| NullCell.

Definition int_cell (o : option Z) : Cell :=
  match o with
  | Some n => IntCell n
  | None => NullCell
  end.

Definition text_cell (o : option string) : Cell :=
  match o with
  | Some t => TextCell t
  | None => NullCell
  end.

(** The tuple [SELECT *] returns for a row, in column order. *)
Definition row_cells (s : Session) : list Cell :=
  [IntCell (id s); TextCell (user_id s); TextCell (username s);
   IntCell (start_ts s); int_cell (end_ts s);
   int_cell (duration_minutes s); text_cell (description s);
   IntCell (created_at s)].

Definition export_header : list string :=
  ["id"; "user_id"; "username"; "start_ts"; "end_ts"; "duration_minutes";
   "description"; "created_at"]%string.

(** What [!export] sends: the fixed message, or the file, given by the
    rows passed to [writer.writerow] (the text of the file is the work of
    the [csv] module). *)
Inductive ExportReply : Type :=
| NothingToExport
| DataExport (header : list string) (rows : list (list Cell)).

(** The body of [!export]. *)
Definition export_data (db : Database) : ExportReply * Database :=
  match export_query db with
  | [] => (NothingToExport, db)
  | rows => (DataExport export_header (map row_cells rows), db)
  end.

(** [@commands.has_permissions(administrator=True)]: no error handler is
    registered for [!export], so a refused call sends nothing. *)
Definition export_command (db : Database) (administrator : bool)
    : option ExportReply * Database :=
  if administrator then (Some (fst (export_data db)), snd (export_data db))
  else (None, db).

(** [after] is the row [before] closed at [t_end] with [d] minutes and the
    description [desc]: the three close columns are set, the others kept. *)
Definition closes (t_end d : Z) (desc : string) (before after : Session)
    : Prop :=
  id after = id before /\ user_id after = user_id before /\
  username after = username before /\ start_ts after = start_ts before /\
  created_at after = created_at before /\
  end_ts after = Some t_end /\ duration_minutes after = Some d /\
  description after = Some desc.

(** ** Overlapping handlers *)

(** The part of [!logout] that runs when [bot.wait_for] returns.  [session]
    is the row the handler looked up before the wait; other handlers may
    have run since, and the UPDATE names the row by its [id] only. *)
Definition logout_finish (db : Database) (session : Session)
    (reply : option string) (t_duration t_end : Z)
    : list Message * Database :=
  let description := logout_description reply in
  let session_id := id session in
  let duration_minutes := get_session_duration session t_duration in
  let end_ts := t_end in
  let db' := update_session db end_ts duration_minutes description
               session_id in
  let (hours, minutes) := hours_minutes duration_minutes in
  (logout_notice reply ++ [SessionLogged hours minutes description], db').

(** One uninterrupted piece of work on the database: a whole handler, or
    the end of a [!logout] whose lookup happened some steps before. *)
Inductive Step : Type :=
| Whole (c : Command)
| LogoutResumes (session : Session) (reply : option string)
    (t_duration t_end : Z).

Definition step (db : Database) (st : Step) : Database :=
  match st with
  | Whole c => snd (handle db c)
  | LogoutResumes session reply t_duration t_end =>
      snd (logout_finish db session reply t_duration t_end)
  end.

Definition run_steps (db : Database) (steps : list Step) : Database :=
  fold_left step steps db.

(** No resumed [!logout] among [steps] holds the rowid [rid]. *)
Definition none_pending_on (rid : Z) (steps : list Step) : Prop :=
  Forall (fun st =>
            match st with
            | Whole _ => True
            | LogoutResumes session _ _ _ => id session <> rid
            end) steps.

(** ** Further properties of rows and strings *)






(** [r'] is the row [r] at a later time: the columns written by the INSERT
    are the same, and a closed row is still closed. *)
Definition evolves (r r' : Session) : Prop :=
  id r' = id r /\ user_id r' = user_id r /\ username r' = username r /\
  start_ts r' = start_ts r /\ created_at r' = created_at r /\
  (end_ts r <> None -> end_ts r' <> None).

(** The table of [db'] is the table of [db], row by row at a later time,
    followed by new rows. *)
Definition extends (db db' : Database) : Prop :=
  exists kept added,
    sessions db' = kept ++ added /\ Forall2 evolves (sessions db) kept.

Definition sum_Z (l : list Z) : Z := fold_right Z.add 0 l.

(** The rowids [1, 2, ..., n]. *)
Definition first_rowids (n : nat) : list Z := map Z.of_nat (seq 1 n).

(** One user clocked in, one session completed. *)
Definition mixed_db : Database :=
  run (init_db None)
      [Login "1" "alice" 0 0;
       Logout "1" (Some "first"%string) 3600 3600;
       Login "2" "bob" 4000 4000].

(** * Facts about the table *)

Section Lookup.

Variable uid : string.

Lemma is_active_for_spec (s : Session) :
  is_active_for uid s = true <-> user_id s = uid /\ end_ts s = None.
Proof.
  unfold is_active_for. rewrite andb_true_iff, String.eqb_eq.
  destruct (end_ts s); simpl; intuition congruence.
Qed.

Lemma find_none_filter (rows : list Session) :
  find (is_active_for uid) rows = None ->
  filter (is_active_for uid) rows = [].
Proof.
  induction rows as [|s rows IH]; simpl; [reflexivity|].
  destruct (is_active_for uid s); [discriminate | exact IH].
Qed.

Lemma find_none_app (rows : list Session) (s : Session) :
  find (is_active_for uid) rows = None ->
  find (is_active_for uid) (rows ++ [s]) = find (is_active_for uid) [s].
Proof.
  induction rows as [|r rows IH]; simpl; [reflexivity|].
  destruct (is_active_for uid r); [discriminate | exact IH].
Qed.

Lemma get_current_session_some (db : Database) (s : Session) :
  get_current_session db uid = Some s ->
  In s (sessions db) /\ user_id s = uid /\ end_ts s = None.
Proof.
  unfold get_current_session. intros H.
  apply find_some in H. destruct H as [Hin Hact].
  apply is_active_for_spec in Hact. tauto.
Qed.

Lemma get_current_session_none (db : Database) :
  get_current_session db uid = None <-> ~ has_active db uid.
Proof.
  unfold get_current_session, has_active. split.
  - intros H [r [Hin [Hu He]]].
    pose proof (find_none _ _ H r Hin) as Hf.
    assert (is_active_for uid r = true) by (apply is_active_for_spec; tauto).
    congruence.
  - intros H. destruct (find (is_active_for uid) (sessions db)) eqn:E;
      [|reflexivity].
    exfalso. apply H. exists s.
    apply find_some in E. destruct E as [Hin Hact].
    apply is_active_for_spec in Hact. tauto.
Qed.

Lemma has_active_get_current_session (db : Database) :
  has_active db uid -> exists s, get_current_session db uid = Some s.
Proof.
  intros H. destruct (get_current_session db uid) eqn:E; [eauto|].
  apply get_current_session_none in E. contradiction.
Qed.

End Lookup.

(** An UPDATE that closes rows never makes a row active. *)
Lemma close_keeps_inactive (u : string) (e d : Z) (desc : string) (sid : Z)
    (s : Session) :
  is_active_for u (if id s =? sid then close_row e d desc s else s) = true ->
  is_active_for u s = true /\ id s <> sid.
Proof.
  destruct (Z.eqb_spec (id s) sid) as [Heq|Hne].
  - unfold is_active_for, close_row; simpl. rewrite andb_false_r. discriminate.
  - auto.
Qed.

Lemma filter_map_shrinks {A : Type} (p : A -> bool) (f : A -> A) (l : list A) :
  (forall x, p (f x) = true -> p x = true) ->
  (List.length (filter p (map f l)) <= List.length (filter p l))%nat.
Proof.
  intros Hp. induction l as [|x l IH]; simpl; [lia|].
  destruct (p (f x)) eqn:E.
  - rewrite (Hp x E). simpl. lia.
  - destruct (p x); simpl; lia.
Qed.

Lemma update_session_active_count (db : Database) (e d : Z) (desc : string)
    (sid : Z) (u : string) :
  (List.length (filter (is_active_for u)
                  (sessions (update_session db e d desc sid))) <=
   List.length (filter (is_active_for u) (sessions db)))%nat.
Proof.
  unfold update_session; simpl. apply filter_map_shrinks.
  intros s H. apply close_keeps_inactive in H. tauto.
Qed.

Lemma insert_session_other_user (db : Database) (uid uname : string)
    (start db_now : Z) (u : string) :
  u <> uid ->
  filter (is_active_for u) (sessions (insert_session db uid uname start db_now))
  = filter (is_active_for u) (sessions db).
Proof.
  intros Hne. unfold insert_session; simpl. rewrite filter_app; simpl.
  unfold is_active_for at 2; simpl.
  destruct (String.eqb_spec uid u) as [E|_]; [congruence|].
  simpl. apply app_nil_r.
Qed.

(** ** The handlers, case by case *)

Lemma login_idle (db : Database) (uid uname : string) (current_ts db_now : Z) :
  get_current_session db uid = None ->
  login db uid uname current_ts db_now =
  ([ClockedIn], insert_session db uid uname current_ts db_now).
Proof. intros H. unfold login. rewrite H. reflexivity. Qed.

Lemma login_active (db : Database) (uid uname : string) (current_ts db_now : Z)
    (s : Session) :
  get_current_session db uid = Some s ->
  login db uid uname current_ts db_now =
  ([AlreadyLoggedIn (strftime_HMS (start_ts s))], db).
Proof. intros H. unfold login. rewrite H. reflexivity. Qed.

Lemma logout_idle (db : Database) (uid : string) (reply : option string)
    (t_duration t_end : Z) :
  get_current_session db uid = None ->
  logout db uid reply t_duration t_end = ([NotLoggedIn], db).
Proof. intros H. unfold logout. rewrite H. reflexivity. Qed.

Lemma logout_active (db : Database) (uid : string) (reply : option string)
    (t_duration t_end : Z) (s : Session) :
  get_current_session db uid = Some s ->
  logout db uid reply t_duration t_end =
  (DescriptionPrompt :: logout_notice reply ++
     [SessionLogged (get_session_duration s t_duration / 60)
                    (get_session_duration s t_duration mod 60)
                    (logout_description reply)],
   update_session db t_end (get_session_duration s t_duration)
                  (logout_description reply) (id s)).
Proof. intros H. unfold logout. rewrite H. reflexivity. Qed.

Lemma handle_read_only (db : Database) (c : Command) :
  match c with
  | Login _ _ _ _ | Logout _ _ _ _ => True
  | _ => snd (handle db c) = db
  end.
Proof.
  destruct c as [| | u now | | adm target]; simpl; auto.
  - unfold status. destruct (get_current_session db u); reflexivity.
  - unfold leaderboard. destruct (leaderboard_query db); reflexivity.
  - unfold report_command, report. destruct adm; [|reflexivity].
    destruct target as [[u n]|].
    + destruct (user_report_query db u) as [[t|] c]; reflexivity.
    + destruct (server_report_query db); reflexivity.
Qed.

(** ** Rowids *)

Lemma max_rowid_bound (rows : list Session) :
  Forall (fun s => id s <= max_rowid rows) rows.
Proof.
  induction rows as [|r rows IH]; simpl; constructor.
  - lia.
  - eapply Forall_impl; [|exact IH]. simpl. intros s Hs. lia.
Qed.

Lemma strongly_sorted_snoc {A : Type} (R : A -> A -> Prop) (l : list A) (x : A) :
  StronglySorted R l -> Forall (fun y => R y x) l -> StronglySorted R (l ++ [x]).
Proof.
  induction 1 as [|y l Hs IH Hy]; intros Hall; simpl.
  - repeat constructor.
  - inversion Hall; subst. constructor; [auto|].
    apply Forall_app. split; [assumption | repeat constructor; assumption].
Qed.

Lemma insert_session_rowids (db : Database) (uid uname : string)
    (start db_now : Z) :
  rowids_increasing db ->
  rowids_increasing (insert_session db uid uname start db_now).
Proof.
  unfold rowids_increasing, insert_session, next_rowid; simpl. intros H.
  apply strongly_sorted_snoc; [assumption|].
  eapply Forall_impl; [|apply max_rowid_bound]. simpl. intros s Hs. lia.
Qed.

Lemma update_session_rowids (db : Database) (e d : Z) (desc : string) (sid : Z) :
  rowids_increasing db -> rowids_increasing (update_session db e d desc sid).
Proof.
  unfold rowids_increasing, update_session; simpl.
  set (f := fun s => if id s =? sid then close_row e d desc s else s).
  assert (Hid : forall s, id (f s) = id s).
  { intros s. unfold f. destruct (id s =? sid); reflexivity. }
  induction 1 as [|y l Hs IH Hy]; simpl; constructor; [assumption|].
  apply Forall_map. eapply Forall_impl; [|exact Hy].
  simpl. intros s Hlt. rewrite !Hid. exact Hlt.
Qed.

Lemma handle_rowids (db : Database) (c : Command) :
  rowids_increasing db -> rowids_increasing (snd (handle db c)).
Proof.
  intros H. pose proof (handle_read_only db c) as Hro.
  destruct c as [u n t t'|u reply td te| | |]; try (rewrite Hro; exact H).
  - simpl. destruct (get_current_session db u) as [s|] eqn:E.
    + rewrite (login_active _ _ _ _ _ _ E). exact H.
    + rewrite (login_idle _ _ _ _ _ E). apply insert_session_rowids, H.
  - simpl. destruct (get_current_session db u) as [s|] eqn:E.
    + rewrite (logout_active _ _ _ _ _ _ E). apply update_session_rowids, H.
    + rewrite (logout_idle _ _ _ _ _ E). exact H.
Qed.

(** Every table the bot can produce has increasing rowids. *)
Lemma run_rowids (cmds : list Command) (db : Database) :
  rowids_increasing db -> rowids_increasing (run db cmds).
Proof.
  revert db. induction cmds as [|c cmds IH]; intros db H; simpl; [exact H|].
  apply IH, handle_rowids, H.
Qed.

Lemma find_first_lowest_rowid (p : Session -> bool) (rows : list Session)
    (s : Session) :
  StronglySorted (fun a b => id a < id b) rows ->
  find p rows = Some s ->
  forall r, In r rows -> p r = true -> id s <= id r.
Proof.
  induction 1 as [|x rows Hs IH Hx]; simpl; [discriminate|].
  intros Hfind r Hin Hp. destruct (p x) eqn:Epx.
  - injection Hfind as <-. destruct Hin as [<-|Hin]; [lia|].
    rewrite Forall_forall in Hx. specialize (Hx r Hin). lia.
  - destruct Hin as [<-|Hin]; [congruence|]. apply IH; assumption.
Qed.

(** * The session life cycle *)

(** ** Stored duration and stored end time *)

(** What [!logout] writes: the duration comes from the clock value read by
    [get_session_duration], the end time from the handler's own later
    reading. *)
Lemma logout_stored_fields (db : Database) (uid : string)
    (reply : option string) (t_duration t_end : Z) (s : Session) :
  get_current_session db uid = Some s ->
  In (close_row t_end (round_div60 (t_duration - start_ts s))
                (logout_description reply) s)
     (sessions (snd (logout db uid reply t_duration t_end))).
Proof.
  intros H. rewrite (logout_active _ _ _ _ _ _ H). simpl.
  apply in_map_iff. exists s. rewrite Z.eqb_refl. split; [reflexivity|].
  apply (get_current_session_some _ _ _ H).
Qed.

(** When both readings of the clock give the same second, the stored
    duration is the rounded difference of the stored timestamps. *)
Lemma logout_duration_same_second (db : Database) (uid : string)
    (reply : option string) (t : Z) (s : Session) :
  get_current_session db uid = Some s ->
  exists row,
    In row (sessions (snd (logout db uid reply t t))) /\
    id row = id s /\ start_ts row = start_ts s /\ end_ts row = Some t /\
    duration_minutes row = Some (round_div60 (t - start_ts row)).
Proof.
  intros H. eexists. split; [apply (logout_stored_fields _ _ reply t t _ H)|].
  simpl. auto.
Qed.

(** C1 (evaluation at the failing input).  A session that started at
    1700000000 is closed while the clock passes from 1700000030 to
    1700000031 between the two readings: the row stores [end_ts] 1700000031
    with [duration_minutes] 0, although the rounded difference of the stored
    timestamps, [round(31/60)], is 1. *)
Theorem logout_duration_differs_from_stored_end_ts :
  sessions (snd (logout clocked_in_db "7" (Some "wrote spec"%string)
                        1700000030 1700000031)) =
    [ {| id := 1; user_id := "7"; username := "ann";
         start_ts := 1700000000; end_ts := Some 1700000031;
         duration_minutes := Some 0;
         description := Some "wrote spec"%string;
         created_at := 1700000000 |} ] /\
  round_div60 (1700000031 - 1700000000) = 1.
Proof. split; vm_compute; reflexivity. Qed.

(** ** The active-session invariant *)

Lemma handle_one_active (db : Database) (c : Command) :
  one_active db -> one_active (snd (handle db c)).
Proof.
  intros H. pose proof (handle_read_only db c) as Hro.
  destruct c as [u n t t'|u reply td te| | |]; try (rewrite Hro; exact H).
  - simpl. destruct (get_current_session db u) as [s|] eqn:E.
    + rewrite (login_active _ _ _ _ _ _ E). exact H.
    + rewrite (login_idle _ _ _ _ _ E). simpl snd. intros v.
      destruct (string_dec v u) as [->|Hne].
      * unfold insert_session; simpl. rewrite filter_app.
        rewrite (find_none_filter _ _ E). simpl.
        destruct (is_active_for u _); simpl; lia.
      * rewrite insert_session_other_user by assumption. apply H.
  - simpl. destruct (get_current_session db u) as [s|] eqn:E.
    + rewrite (logout_active _ _ _ _ _ _ E). simpl snd. intros v.
      eapply Nat.le_trans; [apply update_session_active_count | apply H].
    + rewrite (logout_idle _ _ _ _ _ E). exact H.
Qed.

Lemma run_one_active (cmds : list Command) (db : Database) :
  one_active db -> one_active (run db cmds).
Proof.
  revert db. induction cmds as [|c cmds IH]; intros db H; simpl; [exact H|].
  apply IH, handle_one_active, H.
Qed.


(** C2.  Commands executed one after the other from a table in which every
    user has at most one row with [end_ts] NULL leave such a table: each of
    [login], [logout], [status] (and the read-only reports) preserves the
    active-session invariant. *)
Theorem one_active_preserved (db : Database) (cmds : list Command) :
  one_active db -> one_active (run db cmds).
Proof. apply run_one_active. Qed.

Lemma one_active_preserved_witness :
  one_active clocked_in_db /\
  one_active (run clocked_in_db
                [Login "7" "ann" 1700000100 1700000100;
                 Status "7" 1700000200;
                 Login "8" "bea" 1700000300 1700000300;
                 Logout "7" None 1700003600 1700003600;
                 Login "7" "ann" 1700003700 1700003700]).
Proof.
  assert (H : one_active clocked_in_db).
  { intros u. simpl. destruct (is_active_for u _); simpl; lia. }
  split; [exact H|].
  apply (one_active_preserved clocked_in_db). exact H.
Defined.

(** ** The lookup when the invariant is broken *)

(** C3 (as stated, refuted).  In [two_active_db] user 42 has two open rows;
    the lookup returns a row, and it is not the one with the most recent
    [start_ts]. *)
Lemma get_current_session_not_most_recent :
  exists s, get_current_session two_active_db "42" = Some s /\
            ~ most_recent_active two_active_db "42" s.
Proof.
  eexists. split; [reflexivity|].
  intros [_ [_ [_ H]]].
  specialize (H (nth 1 (sessions two_active_db) (mkSession 0 "x" "x" 0 None None None 0))).
  simpl in H. specialize (H (or_intror (or_introl eq_refl)) eq_refl eq_refl).
  lia.
Qed.

(** C3 (amended).  Whenever a user has open rows, one or several, the lookup
    does not fail: it returns the open row of that user with the lowest
    rowid, the one inserted first, whatever the [start_ts] values are. *)
Theorem get_current_session_lowest_rowid (db : Database) (uid : string) :
  rowids_increasing db ->
  has_active db uid ->
  exists s, get_current_session db uid = Some s /\
            In s (sessions db) /\ user_id s = uid /\ end_ts s = None /\
            forall r, In r (sessions db) -> user_id r = uid ->
                      end_ts r = None -> id s <= id r.
Proof.
  intros Hsorted Hact.
  destruct (has_active_get_current_session _ _ Hact) as [s Hs].
  exists s. split; [exact Hs|].
  destruct (get_current_session_some _ _ _ Hs) as [Hin [Hu He]].
  repeat split; try assumption.
  intros r Hr Hru Hre.
  apply (find_first_lowest_rowid (is_active_for uid) (sessions db) s Hsorted Hs r Hr).
  apply is_active_for_spec. tauto.
Qed.

Lemma get_current_session_lowest_rowid_witness :
  rowids_increasing two_active_db /\
  has_active two_active_db "42" /\
  exists s, get_current_session two_active_db "42" = Some s /\
            In s (sessions two_active_db) /\ user_id s = "42"%string /\
            end_ts s = None /\
            forall r, In r (sessions two_active_db) -> user_id r = "42"%string ->
                      end_ts r = None -> id s <= id r.
Proof.
  assert (Hs : rowids_increasing two_active_db).
  { unfold rowids_increasing, two_active_db; simpl.
    repeat constructor; simpl; lia. }
  assert (Ha : has_active two_active_db "42").
  { eexists. split; [left; reflexivity|]. split; reflexivity. }
  split; [exact Hs|]. split; [exact Ha|].
  apply (get_current_session_lowest_rowid two_active_db "42" Hs Ha).
Defined.

(** ** Refused commands *)

(** C4.  When the user has an active session, [login] answers "already
    logged in" with the start time of an existing active session of that
    user (its [start_ts], shown as HH:MM:SS), and leaves the whole database
    as it was. *)
Theorem login_while_active_refused (db : Database) (uid uname : string)
    (current_ts db_now : Z) :
  has_active db uid ->
  exists s, In s (sessions db) /\ user_id s = uid /\ end_ts s = None /\
            login db uid uname current_ts db_now =
            ([AlreadyLoggedIn (strftime_HMS (start_ts s))], db).
Proof.
  intros H. destruct (has_active_get_current_session _ _ H) as [s Hs].
  exists s. destruct (get_current_session_some _ _ _ Hs) as [Hin [Hu He]].
  repeat split; try assumption. apply login_active, Hs.
Qed.

Lemma login_while_active_refused_witness :
  has_active clocked_in_db "7" /\
  exists s, In s (sessions clocked_in_db) /\ user_id s = "7"%string /\
            end_ts s = None /\
            login clocked_in_db "7" "ann" 1700000500 1700000500 =
            ([AlreadyLoggedIn (strftime_HMS (start_ts s))], clocked_in_db).
Proof.
  assert (Ha : has_active clocked_in_db "7").
  { eexists. split; [left; reflexivity|]. split; reflexivity. }
  split; [exact Ha|].
  apply (login_while_active_refused clocked_in_db "7" "ann" _ _ Ha).
Defined.

(** C5.  When the user has no active session, [logout] answers "not logged
    in" and the database after the call is the database before it. *)
Theorem logout_while_idle_refused (db : Database) (uid : string)
    (reply : option string) (t_duration t_end : Z) :
  ~ has_active db uid ->
  logout db uid reply t_duration t_end = ([NotLoggedIn], db).
Proof.
  intros H. apply logout_idle. apply get_current_session_none, H.
Qed.

Lemma logout_while_idle_refused_witness :
  ~ has_active clocked_in_db "8" /\
  logout clocked_in_db "8" (Some "nothing"%string) 1700000500 1700000500 =
  ([NotLoggedIn], clocked_in_db).
Proof.
  assert (Hn : ~ has_active clocked_in_db "8").
  { intros [r [Hin [Hu _]]]. simpl in Hin.
    destruct Hin as [<-|[]]. discriminate Hu. }
  split; [exact Hn|].
  apply (logout_while_idle_refused clocked_in_db "8" _ _ _ Hn).
Defined.

(** ** The close columns *)

Lemma handle_close_fields (db : Database) (c : Command) :
  Forall close_fields_together (sessions db) ->
  Forall close_fields_together (sessions (snd (handle db c))).
Proof.
  intros H. pose proof (handle_read_only db c) as Hro.
  destruct c as [u n t t'|u reply td te| | |]; try (rewrite Hro; exact H).
  - simpl. destruct (get_current_session db u) as [s|] eqn:E.
    + rewrite (login_active _ _ _ _ _ _ E). exact H.
    + rewrite (login_idle _ _ _ _ _ E). simpl.
      apply Forall_app. split; [exact H|].
      constructor; [|constructor]. left. simpl. auto.
  - simpl. destruct (get_current_session db u) as [s|] eqn:E.
    + rewrite (logout_active _ _ _ _ _ _ E). simpl.
      apply Forall_map. eapply Forall_impl; [|exact H].
      intros r Hr. simpl. destruct (id r =? id s); [|exact Hr].
      right. do 3 eexists. simpl. repeat split; reflexivity.
    + rewrite (logout_idle _ _ _ _ _ E). exact H.
Qed.

Lemma run_close_fields (cmds : list Command) (db : Database) :
  Forall close_fields_together (sessions db) ->
  Forall close_fields_together (sessions (run db cmds)).
Proof.
  revert db. induction cmds as [|c cmds IH]; intros db H; simpl; [exact H|].
  apply IH, handle_close_fields, H.
Qed.

Lemma step_close_fields (db : Database) (st : Step) :
  Forall close_fields_together (sessions db) ->
  Forall close_fields_together (sessions (step db st)).
Proof.
  intros H. destruct st as [c|s reply td te]; simpl.
  - apply handle_close_fields, H.
  - apply Forall_map. eapply Forall_impl; [|exact H].
    intros r Hr. simpl. destruct (id r =? id s); [|exact Hr].
    right. do 3 eexists. simpl. repeat split; reflexivity.
Qed.

Lemma run_steps_close_fields (steps : list Step) (db : Database) :
  Forall close_fields_together (sessions db) ->
  Forall close_fields_together (sessions (run_steps db steps)).
Proof.
  revert db. induction steps as [|st steps IH]; intros db H; simpl;
    [exact H|].
  apply IH, step_close_fields, H.
Qed.

(** The UPDATE closes the rows with the given [id] and no other. *)
Lemma update_session_closes (db : Database) (e d : Z) (desc : string)
    (sid : Z) :
  Forall2 (fun before after =>
             if id before =? sid then closes e d desc before after
             else after = before)
          (sessions db) (sessions (update_session db e d desc sid)).
Proof.
  unfold update_session; simpl.
  induction (sessions db) as [|r rows IH]; simpl; constructor; [|exact IH].
  destruct (id r =? sid); [|reflexivity].
  unfold closes; simpl. repeat split; reflexivity.
Qed.

(** C6.  In every table reachable from the empty one, by whole commands or
    by commands overlapping a pending [logout], each row has [end_ts],
    [duration_minutes] and [description] all NULL or all set.  An accepted
    [login] appends one row with the three NULL (a refused one writes
    nothing); a [logout] of an active user rewrites the row it looked up,
    which was open, setting the three at once and keeping the other
    columns, and leaves every row with another [id] as it was (a refused
    one writes nothing). *)
Theorem close_fields_all_or_none :
  (forall cmds : list Command,
      Forall close_fields_together (sessions (run (init_db None) cmds))) /\
  (forall steps : list Step,
      Forall close_fields_together
             (sessions (run_steps (init_db None) steps))) /\
  (forall db uid uname current_ts db_now,
      match get_current_session db uid with
      | Some _ => snd (login db uid uname current_ts db_now) = db
      | None =>
          exists row,
            sessions (snd (login db uid uname current_ts db_now)) =
              sessions db ++ [row] /\
            user_id row = uid /\ start_ts row = current_ts /\
            end_ts row = None /\ duration_minutes row = None /\
            description row = None
      end) /\
  (forall db uid reply t_duration t_end,
      match get_current_session db uid with
      | None => snd (logout db uid reply t_duration t_end) = db
      | Some s =>
          In s (sessions db) /\ end_ts s = None /\
          Forall2 (fun before after =>
                     if id before =? id s
                     then closes t_end (get_session_duration s t_duration)
                                 (logout_description reply) before after
                     else after = before)
                  (sessions db)
                  (sessions (snd (logout db uid reply t_duration t_end)))
      end).
Proof.
  split; [|split; [|split]].
  - intros cmds. apply run_close_fields. constructor.
  - intros steps. apply run_steps_close_fields. constructor.
  - intros db uid uname current_ts db_now.
    destruct (get_current_session db uid) as [s|] eqn:E.
    + rewrite (login_active _ _ _ _ _ _ E). reflexivity.
    + rewrite (login_idle _ _ _ _ _ E). eexists. split; [reflexivity|].
      simpl. auto.
  - intros db uid reply t_duration t_end.
    destruct (get_current_session db uid) as [s|] eqn:E.
    + destruct (get_current_session_some _ _ _ E) as [Hin [_ He]].
      split; [exact Hin|]. split; [exact He|].
      rewrite (logout_active _ _ _ _ _ _ E). simpl snd.
      apply update_session_closes.
    + rewrite (logout_idle _ _ _ _ _ E). reflexivity.
Qed.

(** ** Idle, active, idle again *)

Lemma insert_session_current (db : Database) (uid uname : string)
    (start db_now : Z) :
  get_current_session db uid = None ->
  get_current_session (insert_session db uid uname start db_now) uid =
  Some {| id := next_rowid db; user_id := uid; username := uname;
          start_ts := start; end_ts := None; duration_minutes := None;
          description := None; created_at := db_now |}.
Proof.
  intros H. unfold get_current_session, insert_session; simpl.
  rewrite (find_none_app _ _ _ H). simpl.
  unfold is_active_for; simpl. rewrite String.eqb_refl. reflexivity.
Qed.

Lemma close_last_inserted (db : Database) (uid uname : string)
    (start db_now e d : Z) (desc : string) :
  ~ has_active db uid ->
  ~ has_active (update_session (insert_session db uid uname start db_now)
                               e d desc (next_rowid db)) uid.
Proof.
  intros Hidle [r [Hin [Hu He]]]. simpl in Hin.
  apply in_map_iff in Hin. destruct Hin as [s [Hrs Hin]].
  assert (Hact : is_active_for uid r = true) by (apply is_active_for_spec; tauto).
  rewrite <- Hrs in Hact. apply close_keeps_inactive in Hact.
  destruct Hact as [Hact Hid]. apply is_active_for_spec in Hact.
  apply in_app_or in Hin. destruct Hin as [Hin|[<-|[]]].
  - apply Hidle. exists s. tauto.
  - apply Hid. reflexivity.
Qed.

(** C7.  From a table in which the user has no active session, [login]
    succeeds and makes the user active, the following [logout] succeeds and
    leaves the user without an active session, and the next [login]
    succeeds again: closing leads back to idle. *)
Theorem login_logout_login (db : Database) (uid uname uname' : string)
    (reply : option string) (t1 c1 t_duration t_end t2 c2 : Z) :
  ~ has_active db uid ->
  let step1 := login db uid uname t1 c1 in
  let step2 := logout (snd step1) uid reply t_duration t_end in
  let step3 := login (snd step2) uid uname' t2 c2 in
  fst step1 = [ClockedIn] /\ has_active (snd step1) uid /\
  (exists hours minutes,
      fst step2 = DescriptionPrompt :: logout_notice reply ++
                    [SessionLogged hours minutes (logout_description reply)]) /\
  ~ has_active (snd step2) uid /\
  fst step3 = [ClockedIn] /\ has_active (snd step3) uid.
Proof.
  intros Hidle step1 step2 step3.
  assert (H0 : get_current_session db uid = None)
    by (apply get_current_session_none, Hidle).
  assert (E1 : step1 = ([ClockedIn], insert_session db uid uname t1 c1))
    by (apply login_idle, H0).
  pose proof (insert_session_current db uid uname t1 c1 H0) as H1.
  assert (E2 : step2 = logout (insert_session db uid uname t1 c1) uid reply
                              t_duration t_end)
    by (unfold step2; rewrite E1; reflexivity).
  rewrite (logout_active _ _ _ _ _ _ H1) in E2. simpl id in E2.
  assert (Hidle2 : ~ has_active (snd step2) uid).
  { rewrite E2. simpl snd. apply close_last_inserted, Hidle. }
  assert (H2 : get_current_session (snd step2) uid = None)
    by (apply get_current_session_none, Hidle2).
  assert (E3 : step3 = ([ClockedIn], insert_session (snd step2) uid uname' t2 c2))
    by (apply login_idle, H2).
  pose proof (insert_session_current (snd step2) uid uname' t2 c2 H2) as H3.
  repeat split.
  - rewrite E1. reflexivity.
  - rewrite E1. simpl snd.
    apply get_current_session_some in H1. eexists. exact H1.
  - rewrite E2. simpl fst. eauto.
  - exact Hidle2.
  - rewrite E3. reflexivity.
  - rewrite E3. simpl snd.
    apply get_current_session_some in H3. eexists. exact H3.
Qed.

Lemma login_logout_login_witness :
  ~ has_active clocked_in_db "8" /\
  let step1 := login clocked_in_db "8" "bea" 1700000300 1700000300 in
  let step2 := logout (snd step1) "8" None 1700002100 1700002100 in
  let step3 := login (snd step2) "8" "bea" 1700002200 1700002200 in
  fst step1 = [ClockedIn] /\ has_active (snd step1) "8" /\
  (exists hours minutes,
      fst step2 = DescriptionPrompt :: logout_notice None ++
                    [SessionLogged hours minutes (logout_description None)]) /\
  ~ has_active (snd step2) "8" /\
  fst step3 = [ClockedIn] /\ has_active (snd step3) "8".
Proof.
  assert (Hn : ~ has_active clocked_in_db "8").
  { intros [r [Hin [Hu _]]]. simpl in Hin.
    destruct Hin as [<-|[]]. discriminate Hu. }
  split; [exact Hn|].
  apply (login_logout_login clocked_in_db "8" "bea" "bea" None _ _ _ _ _ _ Hn).
Defined.

(** * Aggregation *)

(** ** Grouping *)

Lemma key_eqb_eq (k1 k2 : GroupKey) : key_eqb k1 k2 = true <-> k1 = k2.
Proof.
  destruct k1 as [u1 n1], k2 as [u2 n2]. unfold key_eqb; simpl.
  rewrite andb_true_iff, !String.eqb_eq. split.
  - intros [-> ->]. reflexivity.
  - intros E. injection E as -> ->. auto.
Qed.

Lemma key_eqb_refl (k : GroupKey) : key_eqb k k = true.
Proof. apply key_eqb_eq. reflexivity. Qed.

Lemma distinct_keys_in (k : GroupKey) (keys : list GroupKey) :
  In k (distinct_keys keys) <-> In k keys.
Proof.
  induction keys as [|k0 keys IH]; simpl; [tauto|].
  rewrite filter_In, IH. split.
  - tauto.
  - intros [E|Hin]; [left; exact E|].
    destruct (key_eqb k0 k) eqn:E.
    + left. apply key_eqb_eq, E.
    + right. auto.
Qed.

Lemma distinct_keys_nodup (keys : list GroupKey) : NoDup (distinct_keys keys).
Proof.
  induction keys as [|k0 keys IH]; simpl; constructor.
  - rewrite filter_In. intros [_ H]. rewrite key_eqb_refl in H. discriminate.
  - apply NoDup_filter, IH.
Qed.

Lemma filter_filter {A : Type} (p q : A -> bool) (l : list A) :
  filter p (filter q l) = filter (fun x => q x && p x) l.
Proof.
  induction l as [|x l IH]; simpl; [reflexivity|].
  destruct (q x); simpl; [destruct (p x)|]; rewrite IH; reflexivity.
Qed.

Lemma insert_key_perm (k : GroupKey) (keys : list GroupKey) :
  Permutation (insert_key k keys) (k :: keys).
Proof.
  induction keys as [|h keys IH]; simpl; [reflexivity|].
  destruct (key_leb k h); [reflexivity|].
  rewrite IH. apply perm_swap.
Qed.

Lemma sort_keys_perm (keys : list GroupKey) : Permutation (sort_keys keys) keys.
Proof.
  induction keys as [|k keys IH]; simpl; [reflexivity|].
  rewrite insert_key_perm. constructor. exact IH.
Qed.

Lemma group_keys_in (k : GroupKey) (rows : list Session) :
  In k (group_keys rows) <-> In k (map group_key rows).
Proof.
  unfold group_keys. split; intros H.
  - apply distinct_keys_in. apply (Permutation_in _ (sort_keys_perm _)), H.
  - apply (Permutation_in _ (Permutation_sym (sort_keys_perm _))).
    apply distinct_keys_in, H.
Qed.

Lemma group_keys_nodup (rows : list Session) : NoDup (group_keys rows).
Proof.
  unfold group_keys. eapply Permutation_NoDup.
  - apply Permutation_sym, sort_keys_perm.
  - apply distinct_keys_nodup.
Qed.

(** The grouping columns of the output rows are the distinct pairs. *)
Lemma group_by_user_keys (rows : list Session) :
  map (fun g => (g_user_id g, g_username g)) (group_by_user rows) =
  group_keys rows.
Proof.
  unfold group_by_user. rewrite map_map. simpl.
  rewrite <- (map_id (group_keys rows)) at 2.
  apply map_ext. intros [u n]. reflexivity.
Qed.

(** ** Ordering *)

Lemma insert_desc_perm (g : Group) (l : list Group) :
  Permutation (insert_desc g l) (g :: l).
Proof.
  induction l as [|h l IH]; simpl; [reflexivity|].
  destruct (g_total h <? g_total g); [reflexivity|].
  destruct (g_total h =? g_total g); [reflexivity|].
  rewrite IH. apply perm_swap.
Qed.

Lemma order_by_total_desc_perm (l : list Group) :
  Permutation (order_by_total_desc l) l.
Proof.
  induction l as [|g l IH]; simpl; [reflexivity|].
  rewrite insert_desc_perm. constructor. exact IH.
Qed.

Lemma insert_desc_sorted (g : Group) (l : list Group) :
  StronglySorted (fun a b => g_total a >= g_total b) l ->
  StronglySorted (fun a b => g_total a >= g_total b) (insert_desc g l).
Proof.
  induction 1 as [|h l Hs IH Hh]; simpl; [repeat constructor|].
  destruct (Z.ltb_spec (g_total h) (g_total g)) as [Hlt|Hge].
  - constructor; [constructor; assumption|].
    constructor; [lia|]. eapply Forall_impl; [|exact Hh]. simpl. intros; lia.
  - destruct (Z.eqb_spec (g_total h) (g_total g)) as [Heq|Hne].
    + constructor; [constructor; assumption|].
      constructor; [lia|]. eapply Forall_impl; [|exact Hh]. simpl. intros; lia.
    + constructor; [exact IH|].
      eapply Permutation_Forall;
        [apply Permutation_sym, insert_desc_perm|].
      constructor; [lia | exact Hh].
Qed.

Lemma order_by_total_desc_sorted (l : list Group) :
  StronglySorted (fun a b => g_total a >= g_total b) (order_by_total_desc l).
Proof.
  induction l as [|g l IH]; simpl; [constructor|].
  apply insert_desc_sorted, IH.
Qed.

Lemma in_firstn {A : Type} (n : nat) (l : list A) (x : A) :
  In x (firstn n l) -> In x l.
Proof.
  revert l. induction n as [|n IH]; intros [|y l]; simpl; try tauto.
  intros [E|H]; [left; exact E | right; apply IH, H].
Qed.

Lemma strongly_sorted_firstn {A : Type} (R : A -> A -> Prop) (n : nat)
    (l : list A) :
  StronglySorted R l -> StronglySorted R (firstn n l).
Proof.
  intros H. revert n. induction H as [|x l Hs IH Hx]; intros [|n]; simpl;
    try constructor.
  - apply IH.
  - rewrite Forall_forall in *. intros y Hy. apply Hx, (in_firstn _ _ _ Hy).
Qed.

Lemma strongly_sorted_map {A B : Type} (R : A -> A -> Prop)
    (R' : B -> B -> Prop) (f : A -> B) (l : list A) :
  (forall a b, R a b -> R' (f a) (f b)) ->
  StronglySorted R l -> StronglySorted R' (map f l).
Proof.
  intros Hf. induction 1 as [|x l Hs IH Hx]; simpl; constructor; [exact IH|].
  apply Forall_map. eapply Forall_impl; [|exact Hx]. simpl. auto.
Qed.

(** ** The ranking *)

Lemma ranking_perm (db : Database) :
  Permutation (ranking db) (group_by_user (completed (sessions db))).
Proof. apply order_by_total_desc_perm. Qed.

(** An output row of the ranking is the aggregate of one pair
    [(user_id, username)] that occurs among the completed rows. *)
Lemma in_ranking (db : Database) (g : Group) :
  In g (ranking db) <->
  exists k, In k (map group_key (completed (sessions db))) /\
            g = aggregate_group (completed (sessions db)) k.
Proof.
  split.
  - intros H. apply (Permutation_in _ (ranking_perm db)) in H.
    unfold group_by_user in H. apply in_map_iff in H.
    destruct H as [k [E Hk]]. exists k. rewrite group_keys_in in Hk. auto.
  - intros [k [Hk ->]].
    apply (Permutation_in _ (Permutation_sym (ranking_perm db))).
    unfold group_by_user. apply in_map. apply group_keys_in, Hk.
Qed.

Lemma ranking_keys_nodup (db : Database) :
  NoDup (map (fun g => (g_user_id g, g_username g)) (ranking db)).
Proof.
  eapply Permutation_NoDup.
  - apply Permutation_map, Permutation_sym, ranking_perm.
  - rewrite group_by_user_keys. apply group_keys_nodup.
Qed.

(** The total of a group, read off the whole table: the minutes of the rows
    that are completed and carry both the [user_id] and the [username] of
    the group. *)
Lemma aggregate_group_total (rows : list Session) (uid uname : string) :
  g_total (aggregate_group (completed rows) (uid, uname)) =
  sum_minutes
    (filter (fun s => is_completed s &&
                      (String.eqb (user_id s) uid &&
                       String.eqb (username s) uname)) rows).
Proof.
  unfold aggregate_group, completed; simpl. rewrite filter_filter.
  reflexivity.
Qed.

(** On rows that passed [duration_minutes IS NOT NULL], SQL's SUM is NULL
    for no row and the sum of the stored minutes otherwise. *)
Lemma sql_sum_completed (rows : list Session) :
  Forall (fun s => is_completed s = true) rows ->
  sql_sum (map duration_minutes rows) =
  match rows with
  | [] => None
  | _ => Some (sum_minutes rows)
  end.
Proof.
  induction 1 as [|s rows Hs Hrows IH]; simpl; [reflexivity|].
  rewrite IH. unfold is_completed, not_null in Hs. unfold minutes_of.
  destruct (duration_minutes s) as [d|]; [|discriminate].
  destruct rows; simpl; [f_equal; lia | reflexivity].
Qed.

(** ** The leaderboard *)

(** C8 (as stated, refuted).  Two users with one completed hour each both
    appear on the leaderboard with the same total, so the totals are not
    strictly descending. *)
Lemma leaderboard_not_strictly_descending :
  leaderboard_query tie_db = [("alice"%string, 60); ("bob"%string, 60)] /\
  ~ StronglySorted (fun x y => snd x > snd y) (leaderboard_query tie_db).
Proof.
  assert (E : leaderboard_query tie_db =
               [("alice"%string, 60); ("bob"%string, 60)])
    by (vm_compute; reflexivity).
  split; [exact E|]. rewrite E. intros H.
  inversion H as [|x l _ Hx]; subst.
  inversion Hx as [|y l' Hgt _]; subst. simpl in Hgt. lia.
Qed.

(** C8 (amended).  The leaderboard has at most 10 entries; the total of each
    entry is the sum of [duration_minutes] over the completed rows (those
    with [duration_minutes] set) of one pair of [user_id] and [username];
    the entries are in descending order of total, equal totals allowed; and
    totals A:120, B:90, C:150 give the order C, A, B. *)
Theorem leaderboard_top10_descending (db : Database) :
  (List.length (leaderboard_query db) <= 10)%nat /\
  StronglySorted (fun x y => snd x >= snd y) (leaderboard_query db) /\
  Forall (fun entry =>
            exists uid,
              In (uid, fst entry) (map group_key (completed (sessions db))) /\
              snd entry =
              sum_minutes
                (filter (fun s => is_completed s &&
                                  (String.eqb (user_id s) uid &&
                                   String.eqb (username s) (fst entry)))
                        (sessions db)))
         (leaderboard_query db) /\
  leaderboard_query abc_db =
    [("C"%string, 150); ("A"%string, 120); ("B"%string, 90)].
Proof.
  unfold leaderboard_query. repeat split.
  - rewrite length_map. apply firstn_le_length.
  - apply (strongly_sorted_map (fun a b => g_total a >= g_total b)).
    + intros a b Hab. exact Hab.
    + apply strongly_sorted_firstn, order_by_total_desc_sorted.
  - apply Forall_forall. intros entry Hin.
    apply in_map_iff in Hin. destruct Hin as [g [<- Hg]].
    apply in_firstn, in_ranking in Hg. destruct Hg as [[u n] [Hk ->]].
    exists u. simpl fst. split; [exact Hk|]. apply aggregate_group_total.
Qed.

(** ** The report for one user *)

(** C9.  The report for one user shows the number of that user's completed
    rows and the sum of their [duration_minutes] (as hours and minutes,
    which together give the sum back); when the user has no completed row it
    answers "no completed work sessions found" instead of a report with a
    zero total. *)
Theorem report_for_user (db : Database) (uid uname : string) :
  let rows := filter (fun s => String.eqb (user_id s) uid && is_completed s)
                     (sessions db) in
  report db (Some (uid, uname)) =
    (match rows with
     | [] => [NoCompletedWorkFound uname]
     | _ => [WorkReport uname (Z.of_nat (List.length rows))
                        (sum_minutes rows / 60) (sum_minutes rows mod 60)]
     end, db) /\
  60 * (sum_minutes rows / 60) + sum_minutes rows mod 60 = sum_minutes rows.
Proof.
  intros rows. split.
  - unfold report, user_report_query. fold rows.
    rewrite sql_sum_completed.
    + destruct rows; reflexivity.
    + apply Forall_forall. intros s Hs. unfold rows in Hs.
      apply filter_In in Hs. destruct Hs as [_ Hs].
      apply andb_true_iff in Hs. tauto.
  - symmetry. apply Z.div_mod. lia.
Qed.

(** ** One entry per pair of user id and display name *)

(** C10.  The leaderboard and the server report are the first 10 and the
    first 5 rows of one ranking, which has exactly one row for each pair
    [(user_id, username)] found among the completed rows, totalling the rows
    of that pair only.  So two completed sessions of one [user_id] under
    different names give two different rows of the ranking, and neither
    total contains the minutes logged under the other name. *)
Theorem renamed_user_has_separate_entries (db : Database) (s1 s2 : Session) :
  In s1 (sessions db) -> In s2 (sessions db) ->
  is_completed s1 = true -> is_completed s2 = true ->
  user_id s1 = user_id s2 -> username s1 <> username s2 ->
  separate_entries db s1 s2.
Proof.
  intros Hin1 Hin2 Hc1 Hc2 Hu Hn.
  assert (Hkey : forall s, In s (sessions db) -> is_completed s = true ->
                 In (group_key s) (map group_key (completed (sessions db)))).
  { intros s Hs Hc. apply in_map. apply filter_In. auto. }
  split; [|split; [|split; [|split]]].
  - exists (aggregate_group (completed (sessions db)) (group_key s1)),
           (aggregate_group (completed (sessions db)) (group_key s2)).
    split; [apply in_ranking; eauto|].
    split; [apply in_ranking; eauto|].
    split.
    { intros E. apply (f_equal g_username) in E. simpl in E. contradiction. }
    unfold group_key, total_under.
    repeat split; try apply aggregate_group_total.
  - apply ranking_keys_nodup.
  - apply Forall_forall. intros g Hg. apply in_ranking in Hg.
    destruct Hg as [[u n] [_ ->]]. reflexivity.
  - reflexivity.
  - reflexivity.
Qed.

Lemma renamed_user_has_separate_entries_witness :
  In renamed_first (sessions renamed_db) /\
  In renamed_second (sessions renamed_db) /\
  is_completed renamed_first = true /\ is_completed renamed_second = true /\
  user_id renamed_first = user_id renamed_second /\
  username renamed_first <> username renamed_second /\
  separate_entries renamed_db renamed_first renamed_second.
Proof.
  assert (H1 : In renamed_first (sessions renamed_db))
    by (left; reflexivity).
  assert (H2 : In renamed_second (sessions renamed_db))
    by (right; left; reflexivity).
  assert (Hn : username renamed_first <> username renamed_second)
    by (simpl; discriminate).
  repeat (split; [first [assumption | reflexivity]|]).
  apply (renamed_user_has_separate_entries renamed_db renamed_first
           renamed_second H1 H2 eq_refl eq_refl eq_refl Hn).
Defined.

(** On [renamed_db] both reports list user 1 twice, once per name. *)
Example renamed_db_reports :
  leaderboard_query renamed_db =
    [("alice2"%string, 150); ("alice"%string, 60)] /\
  server_report_query renamed_db =
    [("alice2"%string, 150, 1); ("alice"%string, 60, 1)].
Proof. split; vm_compute; reflexivity. Qed.

(** * Further properties of the code *)

(** ** Durations *)

Lemma round_div60_cases (n : Z) :
  exists q r, n = 60 * q + r /\ 0 <= r < 60 /\
              (round_div60 n = q \/ round_div60 n = q + 1) /\
              (r < 30 -> round_div60 n = q) /\
              (30 < r -> round_div60 n = q + 1).
Proof.
  exists (n / 60), (n mod 60). unfold round_div60.
  pose proof (Z.div_mod n 60 ltac:(lia)) as Hdm.
  pose proof (Z.mod_pos_bound n 60 ltac:(lia)) as Hb.
  destruct (Z.ltb_spec (n mod 60) 30), (Z.ltb_spec 30 (n mod 60)),
    (Z.even (n / 60)); repeat split; try lia; auto.
Qed.

Lemma round_div60_monotone (n m : Z) :
  n <= m -> round_div60 n <= round_div60 m.
Proof.
  intros Hle. destruct (Z.eq_dec n m) as [->|Hne]; [lia|].
  destruct (round_div60_cases n) as [qn [rn [En [Hrn [Hn [Hn1 Hn2]]]]]].
  destruct (round_div60_cases m) as [qm [rm [Em [Hrm [Hm [Hm1 Hm2]]]]]].
  destruct (Z.lt_trichotomy rn 30) as [H|[H|H]];
    destruct (Z.lt_trichotomy rm 30) as [H'|[H'|H']];
    try specialize (Hn1 H); try specialize (Hn2 H);
    try specialize (Hm1 H'); try specialize (Hm2 H'); lia.
Qed.

(** X1.  The minutes [get_session_duration] returns are the elapsed
    seconds rounded to the nearest minute: they are never more than 30
    seconds away from the elapsed time. *)
Theorem duration_within_half_minute (s : Session) (now : Z) :
  -30 <= (now - start_ts s) - 60 * get_session_duration s now <= 30.
Proof.
  unfold get_session_duration.
  destruct (round_div60_cases (now - start_ts s))
    as [q [r [E [Hr [_ [H1 H2]]]]]].
  destruct (Z.lt_trichotomy r 30) as [H|[H|H]].
  - rewrite (H1 H). lia.
  - unfold round_div60.
    pose proof (Z.div_mod (now - start_ts s) 60 ltac:(lia)) as Hdm.
    pose proof (Z.mod_pos_bound (now - start_ts s) 60 ltac:(lia)) as Hb.
    destruct (Z.ltb_spec ((now - start_ts s) mod 60) 30),
      (Z.ltb_spec 30 ((now - start_ts s) mod 60)),
      (Z.even ((now - start_ts s) / 60)); lia.
  - rewrite (H2 H). lia.
Qed.

(** X2.  As long as the clock does not run backwards, the duration of a
    session is never negative and never decreases: for readings
    [start_ts <= now1 <= now2] the minutes at [now1] are between 0 and the
    minutes at [now2]. *)
Theorem duration_nonnegative_monotone (s : Session) (now1 now2 : Z) :
  start_ts s <= now1 -> now1 <= now2 ->
  0 <= get_session_duration s now1 <= get_session_duration s now2.
Proof.
  intros H1 H2. unfold get_session_duration. split.
  - change 0 with (round_div60 0). apply round_div60_monotone. lia.
  - apply round_div60_monotone. lia.
Qed.

Lemma duration_nonnegative_monotone_witness :
  start_ts renamed_second <= 4029 /\ 4029 <= 4031 /\
  0 <= get_session_duration renamed_second 4029
    <= get_session_duration renamed_second 4031.
Proof.
  assert (H1 : start_ts renamed_second <= 4029) by (simpl; lia).
  assert (H2 : 4029 <= 4031) by lia.
  split; [exact H1|]. split; [exact H2|].
  apply (duration_nonnegative_monotone renamed_second 4029 4031 H1 H2).
Defined.

(** X3.  For the same session and the same reading of the clock, [!status]
    and [!logout] show the same hours and minutes: the live duration and the
    final duration come from one formula. *)
Theorem status_agrees_with_logout (db : Database) (uid : string)
    (reply : option string) (t t_end : Z) :
  has_active db uid ->
  exists hours minutes start_time,
    status db uid t = ([Working hours minutes start_time], db) /\
    fst (logout db uid reply t t_end) =
      DescriptionPrompt :: logout_notice reply ++
        [SessionLogged hours minutes (logout_description reply)].
Proof.
  intros H. destruct (has_active_get_current_session _ _ H) as [s Hs].
  rewrite (logout_active _ _ _ _ _ _ Hs). unfold status. rewrite Hs.
  simpl. eauto.
Qed.

Lemma status_agrees_with_logout_witness :
  has_active clocked_in_db "7" /\
  exists hours minutes start_time,
    status clocked_in_db "7" 1700005400 =
      ([Working hours minutes start_time], clocked_in_db) /\
    fst (logout clocked_in_db "7" None 1700005400 1700005401) =
      DescriptionPrompt :: logout_notice None ++
        [SessionLogged hours minutes (logout_description None)].
Proof.
  assert (Ha : has_active clocked_in_db "7").
  { eexists. split; [left; reflexivity|]. split; reflexivity. }
  split; [exact Ha|].
  apply (status_agrees_with_logout clocked_in_db "7" None _ _ Ha).
Defined.

(** X4.  The "session logged" message and the table agree: after a
    [!logout] of an active user some row is closed with the description
    shown and with a duration [d] such that the hours and minutes shown are
    [d // 60] and [d % 60], the minutes between 0 and 59. *)
Theorem logout_message_matches_row (db : Database) (uid : string)
    (reply : option string) (t_duration t_end : Z) :
  has_active db uid ->
  exists hours minutes task d row,
    fst (logout db uid reply t_duration t_end) =
      DescriptionPrompt :: logout_notice reply ++
        [SessionLogged hours minutes task] /\
    In row (sessions (snd (logout db uid reply t_duration t_end))) /\
    user_id row = uid /\ end_ts row = Some t_end /\
    duration_minutes row = Some d /\ description row = Some task /\
    d = 60 * hours + minutes /\ 0 <= minutes < 60.
Proof.
  intros H. destruct (has_active_get_current_session _ _ H) as [s Hs].
  pose proof (logout_stored_fields db uid reply t_duration t_end s Hs) as Hin.
  destruct (get_current_session_some _ _ _ Hs) as [_ [Hu _]].
  rewrite (logout_active _ _ _ _ _ _ Hs) in *.
  set (d := get_session_duration s t_duration) in *.
  exists (d / 60), (d mod 60), (logout_description reply), d,
         (close_row t_end d (logout_description reply) s).
  pose proof (Z.div_mod d 60 ltac:(lia)) as Hdm.
  pose proof (Z.mod_pos_bound d 60 ltac:(lia)) as Hb.
  split; [reflexivity|]. split; [exact Hin|].
  split; [exact Hu|]. repeat split; try reflexivity; lia.
Qed.

Lemma logout_message_matches_row_witness :
  has_active clocked_in_db "7" /\
  exists hours minutes task d row,
    fst (logout clocked_in_db "7" None 1700005400 1700005401) =
      DescriptionPrompt :: logout_notice None ++
        [SessionLogged hours minutes task] /\
    In row (sessions (snd (logout clocked_in_db "7" None
                                  1700005400 1700005401))) /\
    user_id row = "7"%string /\ end_ts row = Some 1700005401 /\
    duration_minutes row = Some d /\ description row = Some task /\
    d = 60 * hours + minutes /\ 0 <= minutes < 60.
Proof.
  assert (Ha : has_active clocked_in_db "7").
  { eexists. split; [left; reflexivity|]. split; reflexivity. }
  split; [exact Ha|].
  apply (logout_message_matches_row clocked_in_db "7" None _ _ Ha).
Defined.

(** ** Clock display *)

(** X5.  The start time shown by [!login] and [!status] is a time of day:
    it always has the eight characters of HH:MM:SS, and two start times a
    whole number of days apart are shown alike. *)
Theorem strftime_HMS_time_of_day (ts days : Z) :
  String.length (strftime_HMS ts) = 8%nat /\
  strftime_HMS (ts + 86400 * days) = strftime_HMS ts.
Proof.
  split; [reflexivity|]. unfold strftime_HMS.
  replace ((ts + 86400 * days) / 3600) with (ts / 3600 + days * 24)
    by (replace (ts + 86400 * days) with (ts + (days * 24) * 3600) by lia;
        rewrite Z.div_add by lia; reflexivity).
  replace ((ts + 86400 * days) / 60) with (ts / 60 + (days * 1440))
    by (replace (ts + 86400 * days) with (ts + (days * 1440) * 60) by lia;
        rewrite Z.div_add by lia; reflexivity).
  replace ((ts + 86400 * days) mod 60) with (ts mod 60)
    by (replace (ts + 86400 * days) with (ts + (days * 1440) * 60) by lia;
        rewrite Z_mod_plus_full; reflexivity).
  rewrite Z_mod_plus_full.
  replace (ts / 60 + days * 1440) with (ts / 60 + (days * 24) * 60) by lia.
  rewrite Z_mod_plus_full. reflexivity.
Qed.

(** ** The stored description *)













(** ** Rowids *)

Lemma max_rowid_le (rows : list Session) (n : Z) :
  0 <= n -> Forall (fun s => id s <= n) rows -> max_rowid rows <= n.
Proof.
  intros Hn. induction 1 as [|s rows Hs _ IH]; simpl; lia.
Qed.

Lemma first_rowids_snoc (n : nat) :
  first_rowids (S n) = first_rowids n ++ [Z.of_nat n + 1].
Proof.
  unfold first_rowids. rewrite seq_S, map_app. simpl.
  repeat f_equal. lia.
Qed.

Lemma first_rowids_bound (rows : list Session) :
  map id rows = first_rowids (List.length rows) ->
  Forall (fun s => id s <= Z.of_nat (List.length rows)) rows.
Proof.
  intros H. apply Forall_forall. intros s Hs.
  apply (in_map id) in Hs. rewrite H in Hs. unfold first_rowids in Hs.
  apply in_map_iff in Hs. destruct Hs as [k [<- Hk]].
  apply in_seq in Hk. lia.
Qed.

Lemma handle_first_rowids (db : Database) (c : Command) :
  map id (sessions db) = first_rowids (List.length (sessions db)) /\
  sqlite_sequence db = Z.of_nat (List.length (sessions db)) ->
  map id (sessions (snd (handle db c))) =
    first_rowids (List.length (sessions (snd (handle db c)))) /\
  sqlite_sequence (snd (handle db c)) =
    Z.of_nat (List.length (sessions (snd (handle db c)))).
Proof.
  intros [Hids Hseq]. pose proof (handle_read_only db c) as Hro.
  destruct c as [u n t t'|u reply td te| | |];
    try (rewrite Hro; split; assumption).
  - simpl. destruct (get_current_session db u) as [s|] eqn:E.
    + rewrite (login_active _ _ _ _ _ _ E). split; assumption.
    + rewrite (login_idle _ _ _ _ _ E). simpl.
      assert (Hnext : next_rowid db = Z.of_nat (List.length (sessions db)) + 1).
      { unfold next_rowid. rewrite Hseq.
        pose proof (max_rowid_le (sessions db)
                      (Z.of_nat (List.length (sessions db)))
                      ltac:(lia) (first_rowids_bound _ Hids)).
        lia. }
      rewrite map_app, length_app, Nat.add_1_r, first_rowids_snoc.
      simpl. rewrite Hids, Hnext. split; [reflexivity | lia].
  - simpl. destruct (get_current_session db u) as [s|] eqn:E.
    + rewrite (logout_active _ _ _ _ _ _ E). simpl.
      rewrite map_map, length_map. split; [|exact Hseq].
      rewrite <- Hids. apply map_ext. intros r.
      destruct (id r =? id s); reflexivity.
    + rewrite (logout_idle _ _ _ _ _ E). split; assumption.
Qed.

(** X7.  Starting from the empty table the rowids are handed out in order
    and without gaps: after any sequence of commands the [id] column reads
    1, 2, ..., n from the first row to the last, and the AUTOINCREMENT
    counter is n. *)
Theorem rowids_count_up (cmds : list Command) :
  map id (sessions (run (init_db None) cmds)) =
    first_rowids (List.length (sessions (run (init_db None) cmds))) /\
  sqlite_sequence (run (init_db None) cmds) =
    Z.of_nat (List.length (sessions (run (init_db None) cmds))).
Proof.
  assert (H : forall cmds db,
             map id (sessions db) = first_rowids (List.length (sessions db)) /\
             sqlite_sequence db = Z.of_nat (List.length (sessions db)) ->
             map id (sessions (run db cmds)) =
               first_rowids (List.length (sessions (run db cmds))) /\
             sqlite_sequence (run db cmds) =
               Z.of_nat (List.length (sessions (run db cmds)))).
  { clear cmds. induction cmds as [|c cmds IH]; intros db Hdb; simpl;
      [exact Hdb|]. apply IH, handle_first_rowids, Hdb. }
  apply H. split; reflexivity.
Qed.

(** ** What the commands leave alone *)

Lemma evolves_refl (r : Session) : evolves r r.
Proof. unfold evolves. tauto. Qed.

Lemma evolves_trans (a b c : Session) : evolves a b -> evolves b c -> evolves a c.
Proof. unfold evolves. intuition congruence. Qed.

Lemma forall2_evolves_refl (rows : list Session) : Forall2 evolves rows rows.
Proof. induction rows; constructor; [apply evolves_refl | assumption]. Qed.

Lemma forall2_evolves_trans (l1 l2 l3 : list Session) :
  Forall2 evolves l1 l2 -> Forall2 evolves l2 l3 -> Forall2 evolves l1 l3.
Proof.
  intros H. revert l3. induction H as [|a b l1 l2 Hab _ IH]; intros l3 H23;
    inversion H23; subst; constructor; [eapply evolves_trans|]; eauto.
Qed.

Lemma extends_refl (db : Database) : extends db db.
Proof.
  exists (sessions db), []. rewrite app_nil_r.
  split; [reflexivity | apply forall2_evolves_refl].
Qed.

Lemma extends_trans (db1 db2 db3 : Database) :
  extends db1 db2 -> extends db2 db3 -> extends db1 db3.
Proof.
  intros [k1 [a1 [E1 H1]]] [k2 [a2 [E2 H2]]]. rewrite E1 in H2.
  apply Forall2_app_inv_l in H2. destruct H2 as [k [a [Hk [Ha ->]]]].
  exists k, (a ++ a2). rewrite E2, app_assoc.
  split; [reflexivity | eapply forall2_evolves_trans; eauto].
Qed.

Lemma update_session_evolves (db : Database) (e d : Z) (desc : string)
    (sid : Z) :
  Forall2 evolves (sessions db) (sessions (update_session db e d desc sid)).
Proof.
  unfold update_session; simpl.
  induction (sessions db) as [|r rows IH]; simpl; constructor; [|exact IH].
  destruct (id r =? sid); [|apply evolves_refl].
  unfold evolves; simpl. repeat split; try reflexivity. discriminate.
Qed.

Lemma handle_extends (db : Database) (c : Command) :
  extends db (snd (handle db c)).
Proof.
  pose proof (handle_read_only db c) as Hro.
  destruct c as [u n t t'|u reply td te| | |];
    try (rewrite Hro; apply extends_refl).
  - simpl. destruct (get_current_session db u) as [s|] eqn:E.
    + rewrite (login_active _ _ _ _ _ _ E). apply extends_refl.
    + rewrite (login_idle _ _ _ _ _ E). simpl.
      eexists _, _. split; [reflexivity | apply forall2_evolves_refl].
  - simpl. destruct (get_current_session db u) as [s|] eqn:E.
    + rewrite (logout_active _ _ _ _ _ _ E). simpl snd.
      eexists _, []. rewrite app_nil_r.
      split; [reflexivity | apply update_session_evolves].
    + rewrite (logout_idle _ _ _ _ _ E). apply extends_refl.
Qed.

(** X8.  No command deletes, reorders or reopens a session, or rewrites
    what [!login] stored: after any sequence of commands the table starts
    with the rows it had, each with its [id], [user_id], [username],
    [start_ts] and [created_at] unchanged and still closed if it was closed,
    followed by the rows added since. *)
Theorem sessions_only_grow (db : Database) (cmds : list Command) :
  extends db (run db cmds).
Proof.
  revert db. induction cmds as [|c cmds IH]; intros db; simpl.
  - apply extends_refl.
  - eapply extends_trans; [apply handle_extends | apply IH].
Qed.

Lemma rowids_unique (rows : list Session) (a b : Session) :
  StronglySorted (fun x y => id x < id y) rows ->
  In a rows -> In b rows -> id a = id b -> a = b.
Proof.
  induction 1 as [|x rows Hs IH Hx]; simpl; [tauto|].
  rewrite Forall_forall in Hx.
  intros [<-|Ha] [<-|Hb] E; auto.
  - specialize (Hx _ Hb). lia.
  - specialize (Hx _ Ha). lia.
Qed.

Lemma handle_keeps_closed (db : Database) (c : Command) (r : Session) :
  rowids_increasing db ->
  In r (sessions db) -> end_ts r <> None ->
  In r (sessions (snd (handle db c))).
Proof.
  intros Hsorted Hin Hclosed. pose proof (handle_read_only db c) as Hro.
  destruct c as [u n t t'|u reply td te| | |];
    try (rewrite Hro; exact Hin).
  - simpl. destruct (get_current_session db u) as [s|] eqn:E.
    + rewrite (login_active _ _ _ _ _ _ E). exact Hin.
    + rewrite (login_idle _ _ _ _ _ E). simpl. apply in_or_app. auto.
  - simpl. destruct (get_current_session db u) as [s|] eqn:E.
    + rewrite (logout_active _ _ _ _ _ _ E). simpl.
      apply in_map_iff. exists r. split; [|exact Hin].
      destruct (Z.eqb_spec (id r) (id s)) as [Eid|_]; [|reflexivity].
      destruct (get_current_session_some _ _ _ E) as [Hs [_ He]].
      assert (r = s) by (eapply rowids_unique; eauto).
      congruence.
    + rewrite (logout_idle _ _ _ _ _ E). exact Hin.
Qed.

(** A whole [!logout] is its lookup followed at once by its end. *)
Lemma logout_lookup_then_finish (db : Database) (uid : string)
    (reply : option string) (t_duration t_end : Z) :
  logout db uid reply t_duration t_end =
  match get_current_session db uid with
  | None => ([NotLoggedIn], db)
  | Some s =>
      (DescriptionPrompt :: fst (logout_finish db s reply t_duration t_end),
       snd (logout_finish db s reply t_duration t_end))
  end.
Proof.
  unfold logout. destruct (get_current_session db uid); reflexivity.
Qed.

Lemma step_rowids (db : Database) (st : Step) :
  rowids_increasing db -> rowids_increasing (step db st).
Proof.
  intros H. destruct st as [c|s reply td te]; simpl.
  - apply handle_rowids, H.
  - apply update_session_rowids, H.
Qed.

Lemma step_keeps_closed (db : Database) (st : Step) (r : Session) :
  rowids_increasing db ->
  In r (sessions db) -> end_ts r <> None ->
  match st with
  | Whole _ => True
  | LogoutResumes session _ _ _ => id session <> id r
  end ->
  In r (sessions (step db st)).
Proof.
  intros Hsorted Hin Hclosed Hst. destruct st as [c|s reply td te]; simpl.
  - apply handle_keeps_closed; assumption.
  - apply in_map_iff. exists r. split; [|exact Hin].
    destruct (Z.eqb_spec (id r) (id s)) as [Eid|_]; [|reflexivity].
    exfalso. apply Hst. symmetry. exact Eid.
Qed.

(** X9.  A closed session is final unless a [!logout] that looked it up
    before it was closed is still waiting for its reply.  In a table with
    distinct, increasing rowids, a row whose [end_ts] is set is still in
    the table with every column as it was (its [duration_minutes] too)
    after any interleaving of whole commands and resumed [!logout]s, as
    long as no resumed [!logout] holds the [id] of that row.  (One that
    does overwrites the row: its UPDATE does not ask for [end_ts] NULL.) *)
Theorem closed_sessions_are_final (db : Database) (steps : list Step)
    (r : Session) :
  rowids_increasing db ->
  In r (sessions db) -> end_ts r <> None ->
  none_pending_on (id r) steps ->
  In r (sessions (run_steps db steps)).
Proof.
  revert db. induction steps as [|st steps IH]; intros db Hs Hin Hc Hp;
    simpl; [exact Hin|].
  inversion Hp as [|? ? Hst Hrest]; subst.
  apply IH; [apply step_rowids, Hs | | exact Hc | exact Hrest].
  apply step_keeps_closed; assumption.
Qed.

Lemma closed_sessions_are_final_witness :
  rowids_increasing renamed_db /\
  In renamed_first (sessions renamed_db) /\
  end_ts renamed_first <> None /\
  none_pending_on (id renamed_first)
    [Whole (Login "1" "alice3" 20000 20000);
     LogoutResumes renamed_second None 21000 21000;
     Whole (Logout "1" (Some "third"%string) 23000 23000)] /\
  In renamed_first
     (sessions (run_steps renamed_db
                  [Whole (Login "1" "alice3" 20000 20000);
                   LogoutResumes renamed_second None 21000 21000;
                   Whole (Logout "1" (Some "third"%string) 23000 23000)])).
Proof.
  assert (Hs : rowids_increasing renamed_db).
  { unfold rowids_increasing; simpl. repeat constructor; simpl; lia. }
  assert (Hin : In renamed_first (sessions renamed_db))
    by (left; reflexivity).
  assert (Hc : end_ts renamed_first <> None) by (simpl; discriminate).
  assert (Hp : none_pending_on (id renamed_first)
                 [Whole (Login "1" "alice3" 20000 20000);
                  LogoutResumes renamed_second None 21000 21000;
                  Whole (Logout "1" (Some "third"%string) 23000 23000)]).
  { repeat constructor. simpl. discriminate. }
  split; [exact Hs|]. split; [exact Hin|]. split; [exact Hc|].
  split; [exact Hp|].
  apply (closed_sessions_are_final renamed_db _ renamed_first Hs Hin Hc Hp).
Defined.

(** Two overlapping [!logout]s of one user: both look up the open row of
    [clocked_in_db]; the first to end closes it, the second to end writes
    over the closed row. *)
Example overlapping_logouts_overwrite :
  get_current_session clocked_in_db "7" =
    Some {| id := 1; user_id := "7"; username := "ann";
            start_ts := 1700000000; end_ts := None;
            duration_minutes := None; description := None;
            created_at := 1700000000 |} /\
  sessions (run_steps clocked_in_db
              [LogoutResumes
                 {| id := 1; user_id := "7"; username := "ann";
                    start_ts := 1700000000; end_ts := None;
                    duration_minutes := None; description := None;
                    created_at := 1700000000 |}
                 (Some "first"%string) 1700003600 1700003600;
               LogoutResumes
                 {| id := 1; user_id := "7"; username := "ann";
                    start_ts := 1700000000; end_ts := None;
                    duration_minutes := None; description := None;
                    created_at := 1700000000 |}
                 (Some "second"%string) 1700009000 1700009000]) =
    [ {| id := 1; user_id := "7"; username := "ann";
         start_ts := 1700000000; end_ts := Some 1700009000;
         duration_minutes := Some 150;
         description := Some "second"%string;
         created_at := 1700000000 |} ].
Proof. split; vm_compute; reflexivity. Qed.

Lemma find_map_stable (p : Session -> bool) (f : Session -> Session)
    (rows : list Session) :
  Forall (fun r => p (f r) = p r /\ (p r = true -> f r = r)) rows ->
  find p (map f rows) = find p rows.
Proof.
  induction 1 as [|r rows [Hp Hf] _ IH]; simpl; [reflexivity|].
  rewrite Hp. destruct (p r) eqn:E; [rewrite (Hf eq_refl); reflexivity|].
  exact IH.
Qed.

(** X10.  [!login] and [!logout] of one user do not touch the active
    session of another: in a table with distinct, increasing rowids the
    active-session lookup for any other user gives the same row before and
    after. *)
Theorem other_users_unaffected (db : Database) (uid other uname : string)
    (reply : option string) (current_ts db_now t_duration t_end : Z) :
  rowids_increasing db -> other <> uid ->
  get_current_session (snd (login db uid uname current_ts db_now)) other =
    get_current_session db other /\
  get_current_session (snd (logout db uid reply t_duration t_end)) other =
    get_current_session db other.
Proof.
  intros Hsorted Hne. split.
  - destruct (get_current_session db uid) as [s|] eqn:E.
    + rewrite (login_active _ _ _ _ _ _ E). reflexivity.
    + rewrite (login_idle _ _ _ _ _ E). unfold get_current_session; simpl.
      induction (sessions db) as [|r rows IH]; simpl.
      * unfold is_active_for; simpl.
        destruct (String.eqb_spec uid other); [congruence | reflexivity].
      * destruct (is_active_for other r); [reflexivity | exact IH].
  - destruct (get_current_session db uid) as [s|] eqn:E.
    + rewrite (logout_active _ _ _ _ _ _ E). unfold get_current_session; simpl.
      apply find_map_stable. apply Forall_forall. intros r Hr.
      destruct (get_current_session_some _ _ _ E) as [Hs [Hu He]].
      destruct (Z.eqb_spec (id r) (id s)) as [Eid|_]; [|auto].
      assert (r = s) by (eapply rowids_unique; eauto). subst r.
      assert (Hinact : is_active_for other s = false).
      { unfold is_active_for. rewrite Hu.
        destruct (String.eqb_spec uid other); [congruence | reflexivity]. }
      split.
      * rewrite Hinact. unfold is_active_for, close_row; simpl.
        apply andb_false_r.
      * rewrite Hinact. discriminate.
    + rewrite (logout_idle _ _ _ _ _ E). reflexivity.
Qed.

Lemma other_users_unaffected_witness :
  rowids_increasing mixed_db /\ "2"%string <> "1"%string /\
  get_current_session
    (snd (login mixed_db "1" "alice" 5000 5000)) "2" =
    get_current_session mixed_db "2" /\
  get_current_session
    (snd (logout mixed_db "1" None 5000 5000)) "2" =
    get_current_session mixed_db "2".
Proof.
  assert (Hs : rowids_increasing mixed_db).
  { unfold rowids_increasing; simpl. repeat constructor; simpl; lia. }
  assert (Hne : "2"%string <> "1"%string) by discriminate.
  split; [exact Hs|]. split; [exact Hne|].
  apply (other_users_unaffected mixed_db "1" "2" "alice" None _ _ _ _ Hs Hne).
Defined.

Lemma completed_insert_session (db : Database) (uid uname : string)
    (start db_now : Z) :
  completed (sessions (insert_session db uid uname start db_now)) =
  completed (sessions db).
Proof.
  unfold completed, insert_session; simpl. rewrite filter_app. simpl.
  apply app_nil_r.
Qed.

(** X11.  Clocking in changes no report: after [!login], accepted or
    refused, the leaderboard, the server report, the report of every user
    and the export are what they were before. *)
Theorem login_changes_no_report (db : Database) (uid uname : string)
    (current_ts db_now : Z) :
  let db' := snd (login db uid uname current_ts db_now) in
  leaderboard_query db' = leaderboard_query db /\
  server_report_query db' = server_report_query db /\
  (forall u, user_report_query db' u = user_report_query db u) /\
  fst (export_data db') = fst (export_data db).
Proof.
  intros db'. subst db'.
  destruct (get_current_session db uid) as [s|] eqn:E.
  - rewrite (login_active _ _ _ _ _ _ E). simpl snd. auto.
  - rewrite (login_idle _ _ _ _ _ E). simpl snd.
    pose proof (completed_insert_session db uid uname current_ts db_now) as Hc.
    unfold leaderboard_query, server_report_query, ranking, export_data,
      export_query. rewrite Hc.
    split; [reflexivity|]. split; [reflexivity|].
    split; [|destruct (order_by_start_desc (completed (sessions db)));
             reflexivity].
    intros u. unfold user_report_query, insert_session; simpl.
    rewrite filter_app. simpl. rewrite andb_false_r, app_nil_r. reflexivity.
Qed.

(** ** The leaderboard message *)

Lemma group_by_user_nil (rows : list Session) :
  group_by_user rows = [] -> rows = [].
Proof.
  destruct rows as [|r rows]; [reflexivity|]. intros H. exfalso.
  assert (Hin : In (group_key r) (group_keys (r :: rows)))
    by (apply group_keys_in; left; reflexivity).
  unfold group_by_user in H. apply map_eq_nil in H. rewrite H in Hin.
  contradiction.
Qed.

Lemma ranking_nil (db : Database) :
  ranking db = [] <-> completed (sessions db) = [].
Proof.
  unfold ranking. split.
  - intros H. apply group_by_user_nil.
    pose proof (order_by_total_desc_perm
                  (group_by_user (completed (sessions db)))) as Hp.
    rewrite H in Hp. apply Permutation_nil, Hp.
  - intros ->. reflexivity.
Qed.

Lemma leaderboard_query_nil (db : Database) :
  leaderboard_query db = [] <-> completed (sessions db) = [].
Proof.
  rewrite <- ranking_nil. unfold leaderboard_query.
  destruct (ranking db); simpl; split; intros H;
    try reflexivity; discriminate.
Qed.

Lemma leaderboard_lines (results : list (string * Z)) (k : nat) :
  let lines :=
    map (fun '(i, (uname, total_minutes)) =>
           let (hours, minutes) := hours_minutes total_minutes in
           (i + 1, uname, hours, minutes))
        (enumerate_from (Z.of_nat k) results) in
  map (fun '(rank, _, _, _) => rank) lines =
    map Z.of_nat (seq (S k) (List.length results)) /\
  map (fun '(_, uname, hours, minutes) => (uname, 60 * hours + minutes))
      lines = results /\
  Forall (fun '(_, _, _, minutes) => 0 <= minutes < 60) lines.
Proof.
  revert k. induction results as [|[uname total] results IH]; intros k;
    cbn [map enumerate_from hours_minutes seq List.length].
  - repeat split. constructor.
  - replace (Z.of_nat k + 1) with (Z.of_nat (S k)) by lia.
    destruct (IH (S k)) as [H1 [H2 H3]].
    pose proof (Z.div_mod total 60 ltac:(lia)) as Hdm.
    pose proof (Z.mod_pos_bound total 60 ltac:(lia)) as Hb.
    split; [|split].
    + f_equal. exact H1.
    + f_equal; [|exact H2]. f_equal. lia.
    + constructor; [exact Hb | exact H3].
Qed.

(** X12.  [!leaderboard] answers "no completed sessions" exactly when the
    table has no completed row.  Otherwise it sends one board whose lines
    follow the query in order, are numbered 1, 2, ..., and show each total as
    hours and minutes with the minutes between 0 and 59.  The table is left
    as it was. *)
Theorem leaderboard_message (db : Database) :
  match completed (sessions db) with
  | [] => leaderboard db = ([NoCompletedSessionsYet], db)
  | _ :: _ =>
      exists lines,
        leaderboard db = ([Leaderboard lines], db) /\
        map (fun '(rank, _, _, _) => rank) lines =
          map Z.of_nat (seq 1 (List.length (leaderboard_query db))) /\
        map (fun '(_, uname, hours, minutes) => (uname, 60 * hours + minutes))
            lines = leaderboard_query db /\
        Forall (fun '(_, _, _, minutes) => 0 <= minutes < 60) lines
  end.
Proof.
  unfold leaderboard.
  destruct (completed (sessions db)) as [|r rows] eqn:Ec.
  - rewrite (proj2 (leaderboard_query_nil db) Ec). reflexivity.
  - destruct (leaderboard_query db) as [|e results] eqn:E.
    + rewrite (proj1 (leaderboard_query_nil db) E) in Ec. discriminate.
    + eexists. split; [reflexivity|].
      apply (leaderboard_lines (e :: results) 0).
Qed.

(** ** Beyond the limit *)

Lemma strongly_sorted_app {A : Type} (R : A -> A -> Prop) (l1 l2 : list A) :
  StronglySorted R (l1 ++ l2) ->
  forall a b, In a l1 -> In b l2 -> R a b.
Proof.
  induction l1 as [|x l1 IH]; simpl; intros H a b Ha Hb; [contradiction|].
  inversion H as [|? ? Hs Hx]; subst. destruct Ha as [<-|Ha].
  - rewrite Forall_forall in Hx. apply Hx, in_or_app. auto.
  - eapply IH; eauto.
Qed.

(** X13.  The leaderboard is really the top of the ranking: any pair of
    [user_id] and [username] left out by [LIMIT 10] has a total that is at
    most the total of every entry shown. *)
Theorem leaderboard_shows_the_top (db : Database) :
  Forall (fun g => Forall (fun entry => g_total g <= snd entry)
                          (leaderboard_query db))
         (skipn 10 (ranking db)).
Proof.
  apply Forall_forall. intros g Hg. apply Forall_forall. intros entry He.
  unfold leaderboard_query in He. apply in_map_iff in He.
  destruct He as [h [<- Hh]]. simpl.
  pose proof (order_by_total_desc_sorted
                (group_by_user (completed (sessions db)))) as Hs.
  fold (ranking db) in Hs. rewrite <- (firstn_skipn 10 (ranking db)) in Hs.
  pose proof (strongly_sorted_app _ _ _ Hs h g Hh Hg) as Hge.
  simpl in Hge. lia.
Qed.

(** ** The server report *)

Lemma in_group_key (rows : list Session) (k : GroupKey) :
  In k (map group_key rows) -> filter (in_group k) rows <> [].
Proof.
  intros H. apply in_map_iff in H. destruct H as [r [<- Hr]].
  intros E. assert (Hin : In r (filter (in_group (group_key r)) rows)).
  { apply filter_In. split; [exact Hr | apply key_eqb_refl]. }
  rewrite E in Hin. contradiction.
Qed.

(** X14.  The server report is the top five of the leaderboard with the
    number of sessions added: dropping the counts gives the first five
    leaderboard entries, there are at most five lines, and every count is at
    least 1. *)
Theorem server_report_is_top_five (db : Database) :
  map (fun '(uname, total, _) => (uname, total)) (server_report_query db) =
    firstn 5 (leaderboard_query db) /\
  (List.length (server_report_query db) <= 5)%nat /\
  Forall (fun '(_, _, session_count) => 1 <= session_count)
         (server_report_query db).
Proof.
  unfold server_report_query, leaderboard_query. split; [|split].
  - rewrite firstn_map, firstn_firstn, map_map. reflexivity.
  - rewrite length_map. apply firstn_le_length.
  - apply Forall_map, Forall_forall. intros g Hg.
    apply in_firstn, in_ranking in Hg. destruct Hg as [k [Hk ->]].
    simpl. unfold sql_count.
    pose proof (in_group_key _ _ Hk) as Hne.
    destruct (filter (in_group k) (completed (sessions db)));
      [congruence | simpl; lia].
Qed.

(** ** Grouping neither loses nor repeats a session *)

Lemma sum_Z_perm (l l' : list Z) : Permutation l l' -> sum_Z l = sum_Z l'.
Proof. induction 1; simpl; lia. Qed.

Lemma sum_Z_zero {A : Type} (f : A -> Z) (l : list A) :
  (forall x, In x l -> f x = 0) -> sum_Z (map f l) = 0.
Proof.
  induction l as [|x l IH]; simpl; intros H; [reflexivity|].
  rewrite (H x (or_introl eq_refl)), IH; [reflexivity|]. auto.
Qed.

Lemma sum_Z_add {A : Type} (f g : A -> Z) (l : list A) :
  sum_Z (map (fun x => f x + g x) l) = sum_Z (map f l) + sum_Z (map g l).
Proof. induction l as [|x l IH]; simpl; lia. Qed.

Lemma sum_Z_filter {A : Type} (p : A -> bool) (f : A -> Z) (l : list A) :
  sum_Z (map f (filter p l)) = sum_Z (map (fun x => if p x then f x else 0) l).
Proof.
  induction l as [|x l IH]; simpl; [reflexivity|].
  destruct (p x); simpl; lia.
Qed.

Lemma sum_minutes_sum_Z (rows : list Session) :
  sum_minutes rows = sum_Z (map minutes_of rows).
Proof. induction rows as [|r rows IH]; simpl; [reflexivity|]. lia. Qed.

Lemma sql_count_sum_Z (rows : list Session) :
  sql_count rows = sum_Z (map (fun _ => 1) rows).
Proof.
  unfold sql_count. induction rows as [|r rows IH]; [reflexivity|].
  cbn [List.length map sum_Z fold_right] in *. unfold sum_Z in IH. lia.
Qed.

Section Weights.

Variable w : Session -> Z.
Variable P : GroupKey -> bool.

Lemma sum_Z_one_key (k0 : GroupKey) (m : Z) (keys : list GroupKey) :
  NoDup keys -> In k0 keys ->
  sum_Z (map (fun k => if P k then if key_eqb k0 k then m else 0 else 0) keys)
  = if P k0 then m else 0.
Proof.
  induction 1 as [|k keys Hnotin Hnd IH]; simpl; [contradiction|].
  intros [->|Hin].
  - rewrite key_eqb_refl. rewrite sum_Z_zero.
    + destruct (P k0); lia.
    + intros k Hk. destruct (P k); [|reflexivity].
      destruct (key_eqb k0 k) eqn:E; [|reflexivity].
      apply key_eqb_eq in E. subst k. contradiction.
  - rewrite (IH Hin).
    destruct (key_eqb k0 k) eqn:E.
    + apply key_eqb_eq in E. subst k. contradiction.
    + destruct (P k); lia.
Qed.

(** Summing a weight group by group, over the groups selected by [P], is
    summing it over the rows whose pair is selected. *)
Lemma grouped_weight (keys : list GroupKey) (rows : list Session) :
  NoDup keys ->
  (forall r, In r rows -> In (group_key r) keys) ->
  sum_Z (map (fun k => if P k
                       then sum_Z (map w (filter (in_group k) rows))
                       else 0) keys)
  = sum_Z (map w (filter (fun r => P (group_key r)) rows)).
Proof.
  intros Hnd. induction rows as [|r rows IH]; intros Hcov.
  - simpl. apply sum_Z_zero. intros k _. destruct (P k); reflexivity.
  - assert (Hstep :
      sum_Z (map (fun k => if P k
                           then sum_Z (map w (filter (in_group k) (r :: rows)))
                           else 0) keys) =
      sum_Z (map (fun k => (if P k then
                              if key_eqb (group_key r) k then w r else 0
                            else 0) +
                           (if P k
                            then sum_Z (map w (filter (in_group k) rows))
                            else 0)) keys)).
    { f_equal. apply map_ext. intros k. simpl. unfold in_group at 1.
      destruct (P k); [|reflexivity].
      destruct (key_eqb (group_key r) k); simpl; lia. }
    rewrite Hstep, sum_Z_add, IH by (intros; apply Hcov; right; assumption).
    rewrite (sum_Z_one_key (group_key r) (w r) keys Hnd
               (Hcov r (or_introl eq_refl))).
    simpl. destruct (P (group_key r)); simpl; lia.
Qed.

End Weights.

Lemma group_key_covered (rows : list Session) (r : Session) :
  In r rows -> In (group_key r) (group_keys rows).
Proof. intros H. apply group_keys_in, in_map, H. Qed.

Lemma ranking_totals (P : GroupKey -> bool) (db : Database) :
  sum_Z (map g_total
           (filter (fun g => P (g_user_id g, g_username g)) (ranking db))) =
  sum_minutes (filter (fun r => P (group_key r)) (completed (sessions db))).
Proof.
  rewrite sum_Z_filter, sum_minutes_sum_Z.
  rewrite (sum_Z_perm _ _ (Permutation_map _ (ranking_perm db))).
  unfold group_by_user. rewrite map_map.
  rewrite <- (grouped_weight minutes_of P _ _
                (group_keys_nodup _) (group_key_covered _)).
  f_equal. apply map_ext. intros [u n]. simpl.
  rewrite sum_minutes_sum_Z. reflexivity.
Qed.

Lemma ranking_counts (P : GroupKey -> bool) (db : Database) :
  sum_Z (map g_count
           (filter (fun g => P (g_user_id g, g_username g)) (ranking db))) =
  sql_count (filter (fun r => P (group_key r)) (completed (sessions db))).
Proof.
  rewrite sum_Z_filter, sql_count_sum_Z.
  rewrite (sum_Z_perm _ _ (Permutation_map _ (ranking_perm db))).
  unfold group_by_user. rewrite map_map.
  rewrite <- (grouped_weight (fun _ => 1) P _ _
                (group_keys_nodup _) (group_key_covered _)).
  f_equal. apply map_ext. intros [u n]. simpl.
  rewrite sql_count_sum_Z. reflexivity.
Qed.

Lemma filter_all {A : Type} (l : list A) : filter (fun _ => true) l = l.
Proof. induction l as [|x l IH]; simpl; [reflexivity|]. rewrite IH. reflexivity. Qed.

(** X15.  Grouping by [(user_id, username)] counts every completed session
    exactly once: the totals of all rows of the ranking add up to the
    minutes of all completed sessions, and their counts add up to the number
    of completed sessions. *)
Theorem ranking_conserves_minutes (db : Database) :
  sum_Z (map g_total (ranking db)) = sum_minutes (completed (sessions db)) /\
  sum_Z (map g_count (ranking db)) = sql_count (completed (sessions db)).
Proof.
  pose proof (ranking_totals (fun _ => true) db) as Ht.
  pose proof (ranking_counts (fun _ => true) db) as Hc.
  rewrite !filter_all in Ht, Hc. split; assumption.
Qed.

Lemma sum_Z_nonneg {A : Type} (f : A -> Z) (l : list A) :
  (forall x, In x l -> 0 <= f x) -> 0 <= sum_Z (map f l).
Proof.
  induction l as [|x l IH]; simpl; intros H; [lia|].
  pose proof (H x (or_introl eq_refl)).
  assert (0 <= sum_Z (map f l)) by (apply IH; auto).
  lia.
Qed.

Lemma ranking_count_positive (db : Database) (g : Group) :
  In g (ranking db) -> 1 <= g_count g.
Proof.
  intros Hg. apply in_ranking in Hg. destruct Hg as [k [Hk ->]].
  simpl. unfold sql_count. pose proof (in_group_key _ _ Hk) as Hne.
  destruct (filter (in_group k) (completed (sessions db)));
    [congruence | simpl; lia].
Qed.

(** X16.  The report for one user adds up that user's rows of the ranking,
    whatever the display names: its total and its session count are the sums
    of the totals and counts of the ranking rows with that [user_id], and it
    finds "no completed work" exactly when the ranking has no such row. *)
Theorem user_report_sums_groups (db : Database) (uid : string) :
  let mine := filter (fun g => String.eqb (g_user_id g) uid) (ranking db) in
  user_report_query db uid =
    (match mine with
     | [] => None
     | _ :: _ => Some (sum_Z (map g_total mine))
     end,
     sum_Z (map g_count mine)).
Proof.
  intros mine.
  pose proof (ranking_totals (fun k => String.eqb (fst k) uid) db) as Ht.
  pose proof (ranking_counts (fun k => String.eqb (fst k) uid) db) as Hc.
  simpl in Ht, Hc. fold mine in Ht, Hc.
  unfold completed in Ht, Hc. rewrite filter_filter in Ht, Hc.
  assert (Hrows :
    filter (fun x => is_completed x && String.eqb (user_id x) uid)
           (sessions db) =
    filter (fun s => String.eqb (user_id s) uid && is_completed s)
           (sessions db))
    by (apply filter_ext; intros x; apply andb_comm).
  rewrite Hrows in Ht, Hc. unfold user_report_query.
  set (rows := filter (fun s => String.eqb (user_id s) uid && is_completed s)
                      (sessions db)) in *.
  rewrite sql_sum_completed.
  - rewrite Ht, Hc. f_equal.
    destruct mine as [|g mine'] eqn:Em.
    + simpl in Hc. destruct rows; [reflexivity|].
      unfold sql_count in Hc. simpl in Hc. lia.
    + assert (Hg : 1 <= g_count g).
      { apply (ranking_count_positive db). 
        assert (Hin : In g mine) by (rewrite Em; left; reflexivity).
        unfold mine in Hin. apply filter_In in Hin. tauto. }
      assert (Hrest : 0 <= sum_Z (map g_count mine')).
      { apply sum_Z_nonneg. intros h Hh.
        assert (1 <= g_count h); [|lia].
        apply (ranking_count_positive db).
        assert (Hin : In h mine) by (rewrite Em; right; exact Hh).
        unfold mine in Hin. apply filter_In in Hin. tauto. }
      destruct rows; [|reflexivity].
      unfold sql_count in Hc. simpl in Hc. unfold sum_Z in *. lia.
  - apply Forall_forall. intros s Hs. unfold rows in Hs.
    apply filter_In in Hs. destruct Hs as [_ Hs].
    apply andb_true_iff in Hs. tauto.
Qed.

(** ** The export *)

Lemma insert_by_start_desc_perm (r : Session) (l : list Session) :
  Permutation (insert_by_start_desc r l) (r :: l).
Proof.
  induction l as [|h l IH]; simpl; [reflexivity|].
  destruct (start_ts h <? start_ts r); [reflexivity|].
  destruct (start_ts h =? start_ts r); [reflexivity|].
  rewrite IH. apply perm_swap.
Qed.

Lemma order_by_start_desc_perm (l : list Session) :
  Permutation (order_by_start_desc l) l.
Proof.
  induction l as [|r l IH]; simpl; [reflexivity|].
  rewrite insert_by_start_desc_perm. constructor. exact IH.
Qed.

Lemma insert_by_start_desc_sorted (r : Session) (l : list Session) :
  StronglySorted (fun a b => start_ts a >= start_ts b) l ->
  StronglySorted (fun a b => start_ts a >= start_ts b)
                 (insert_by_start_desc r l).
Proof.
  induction 1 as [|h l Hs IH Hh]; simpl; [repeat constructor|].
  destruct (Z.ltb_spec (start_ts h) (start_ts r)) as [Hlt|Hge].
  - constructor; [constructor; assumption|].
    constructor; [lia|]. eapply Forall_impl; [|exact Hh]. simpl. intros; lia.
  - destruct (Z.eqb_spec (start_ts h) (start_ts r)) as [Heq|Hne].
    + constructor; [constructor; assumption|].
      constructor; [lia|]. eapply Forall_impl; [|exact Hh]. simpl. intros; lia.
    + constructor; [exact IH|].
      eapply Permutation_Forall;
        [apply Permutation_sym, insert_by_start_desc_perm|].
      constructor; [lia | exact Hh].
Qed.

Lemma export_query_nil (db : Database) :
  export_query db = [] <-> completed (sessions db) = [].
Proof.
  unfold export_query. split.
  - intros H. pose proof (order_by_start_desc_perm (completed (sessions db))) as Hp.
    rewrite H in Hp. apply Permutation_nil, Hp.
  - intros ->. reflexivity.
Qed.

(** X17.  [!export] says there is nothing to export exactly when no session
    is completed, even if sessions are open.  Otherwise the file has the
    fixed header and one line per completed session and no other line, the
    latest start first, each line giving the eight columns of its row. *)
Theorem export_lists_completed_sessions (db : Database) :
  export_data db =
    (match completed (sessions db) with
     | [] => NothingToExport
     | _ :: _ => DataExport export_header (map row_cells (export_query db))
     end, db) /\
  Permutation (export_query db) (completed (sessions db)) /\
  StronglySorted (fun a b => start_ts a >= start_ts b) (export_query db).
Proof.
  split; [|split].
  - unfold export_data.
    destruct (completed (sessions db)) as [|r rows] eqn:Ec.
    + rewrite (proj2 (export_query_nil db) Ec). reflexivity.
    + destruct (export_query db) as [|e l] eqn:E; [|reflexivity].
      rewrite (proj1 (export_query_nil db) E) in Ec. discriminate.
  - apply order_by_start_desc_perm.
  - unfold export_query, order_by_start_desc.
    induction (completed (sessions db)) as [|r l IH]; simpl; [constructor|].
    apply insert_by_start_desc_sorted, IH.
Qed.

Lemma completed_row_cells (s : Session) :
  close_fields_together s -> is_completed s = true ->
  List.length (row_cells s) = List.length export_header /\
  ~ In NullCell (row_cells s).
Proof.
  intros Hc Hd. split; [reflexivity|].
  unfold is_completed, not_null in Hd.
  destruct Hc as [[_ [Hn _]]|[e [d [t [He [Hdur Hdesc]]]]]].
  - rewrite Hn in Hd. discriminate.
  - unfold row_cells. rewrite He, Hdur, Hdesc. simpl.
    intros H. repeat (destruct H as [H|H]; [discriminate|]). exact H.
Qed.

(** X18.  In a table built by the bot's commands the export has no empty
    cell: every line has as many cells as the header has columns, and none
    of them is NULL. *)
Theorem export_has_no_null_cell (cmds : list Command) :
  match fst (export_data (run (init_db None) cmds)) with
  | NothingToExport => True
  | DataExport header rows =>
      header = export_header /\
      Forall (fun cells => List.length cells = List.length header /\
                           ~ In NullCell cells) rows
  end.
Proof.
  set (db := run (init_db None) cmds).
  assert (Hfields : Forall close_fields_together (sessions db))
    by (apply run_close_fields; constructor).
  assert (Hrows : Forall (fun cells =>
                            List.length cells = List.length export_header /\
                            ~ In NullCell cells)
                         (map row_cells (export_query db))).
  { apply Forall_map, Forall_forall. intros s Hs.
    apply (Permutation_in _ (order_by_start_desc_perm _)) in Hs.
    apply filter_In in Hs. destruct Hs as [Hin Hc].
    rewrite Forall_forall in Hfields.
    apply completed_row_cells; auto. }
  unfold export_data. destruct (export_query db) as [|e l]; [exact I|].
  split; [reflexivity | exact Hrows].
Qed.

(** ** Clocking out, and a whole session *)




(** X20.  A whole session: when an idle user logs in at [t] and then logs
    out, the table holds one more row; it carries the next rowid, the user,
    the name given at login, [start_ts = t], the end time read at logout,
    the rounded minutes between [t] and the duration reading, and the
    description; and [!status] in between reports the minutes since [t]. *)
Theorem login_logout_stores_session (db : Database) (uid uname : string)
    (reply : option string) (t db_now now t_duration t_end : Z) :
  ~ has_active db uid ->
  let db1 := snd (login db uid uname t db_now) in
  let db2 := snd (logout db1 uid reply t_duration t_end) in
  fst (status db1 uid now) =
    [Working (round_div60 (now - t) / 60) (round_div60 (now - t) mod 60)
             (strftime_HMS t)] /\
  List.length (sessions db2) = S (List.length (sessions db)) /\
  In {| id := next_rowid db; user_id := uid; username := uname;
        start_ts := t; end_ts := Some t_end;
        duration_minutes := Some (round_div60 (t_duration - t));
        description := Some (logout_description reply);
        created_at := db_now |} (sessions db2).
Proof.
  intros Hidle db1 db2.
  assert (H0 : get_current_session db uid = None)
    by (apply get_current_session_none, Hidle).
  assert (E1 : db1 = insert_session db uid uname t db_now)
    by (unfold db1; rewrite (login_idle _ _ _ _ _ H0); reflexivity).
  pose proof (insert_session_current db uid uname t db_now H0) as H1.
  rewrite <- E1 in H1.
  split; [|split].
  - unfold status. rewrite H1. reflexivity.
  - unfold db2. rewrite (logout_active _ _ _ _ _ _ H1). simpl.
    rewrite length_map, E1. simpl. rewrite length_app. simpl. lia.
  - pose proof (logout_stored_fields db1 uid reply t_duration t_end _ H1) as Hin.
    exact Hin.
Qed.

Lemma login_logout_stores_session_witness :
  ~ has_active clocked_in_db "8" /\
  let db1 := snd (login clocked_in_db "8" "bea" 32400 32400) in
  let db2 := snd (logout db1 "8" (Some "wrote spec"%string) 34200 34200) in
  fst (status db1 "8" 33000) =
    [Working (round_div60 (33000 - 32400) / 60)
             (round_div60 (33000 - 32400) mod 60) (strftime_HMS 32400)] /\
  List.length (sessions db2) = S (List.length (sessions clocked_in_db)) /\
  In {| id := next_rowid clocked_in_db; user_id := "8"; username := "bea";
        start_ts := 32400; end_ts := Some 34200;
        duration_minutes := Some (round_div60 (34200 - 32400));
        description := Some (logout_description (Some "wrote spec"%string));
        created_at := 32400 |} (sessions db2).
Proof.
  assert (Hn : ~ has_active clocked_in_db "8").
  { intros [r [Hin [Hu _]]]. simpl in Hin.
    destruct Hin as [<-|[]]. discriminate Hu. }
  split; [exact Hn|].
  apply (login_logout_stores_session clocked_in_db "8" "bea"
           (Some "wrote spec"%string) 32400 32400 33000 34200 34200 Hn).
Defined.

(** X21.  Whole minutes are exact and half minutes go to the even
    neighbour, as Python's [round] does: [k] minutes after the start the
    duration is [k]; thirty seconds later it is still [k] when [k] is even
    and [k + 1] when [k] is odd (30 seconds give 0 minutes, 90 seconds 2). *)
Theorem duration_rounds_half_to_even (s : Session) (k : Z) :
  get_session_duration s (start_ts s + 60 * k) = k /\
  get_session_duration s (start_ts s + 60 * k + 30) =
    (if Z.even k then k else k + 1).
Proof.
  unfold get_session_duration, round_div60.
  replace (start_ts s + 60 * k - start_ts s) with (0 + k * 60) by lia.
  replace (start_ts s + 60 * k + 30 - start_ts s) with (30 + k * 60) by lia.
  rewrite !Z.div_add, !Z_mod_plus_full by lia.
  change (0 / 60) with 0. change (30 / 60) with 0.
  change (0 mod 60) with 0. change (30 mod 60) with 30.
  simpl. split; reflexivity.
Qed.
